(** * ImageContainer: the adapter between an image array and its visual

    A shallow embedding of [gui/elements/image_container.py].  The class is
    a mutable Python object; every method is embedded as a computation that
    threads the object's state and either returns or raises.  An exception
    does not roll the object back: what was assigned before the [raise]
    stays assigned.  [size] forwards a field of the visual that nothing
    else in the class touches and is not embedded. *)

From Stdlib Require Import ZArith Floats Lia.
From stdpp Require Import gmap strings list pretty.

Local Open Scope Z_scope.

(** ** Exceptions and outcomes *)

Inductive exn : Type :=
| AttributeError
| TypeError
| ValueError
| IndexError
| NameError
| ZeroDivisionError.

Inductive outcome (A : Type) : Type :=
| Return (a : A)
| Raise (e : exn).

Arguments Return {A} a.
Arguments Raise {A} e.

Definition obind {A B : Type} (o : outcome A) (k : A -> outcome B) : outcome B :=
  match o with
  | Return a => k a
  | Raise e => Raise e
  end.

(** [try: body / except TypeError: pass], for a body whose only effect is
    the new value of a local variable: on [TypeError] the variable keeps
    the value [old] it had before the body ran. *)
Definition except_TypeError_pass {A : Type} (old : A) (body : outcome A) : outcome A :=
  match body with
  | Raise TypeError => Return old
  | r => r
  end.

(** ** Index selectors

    One entry of a slice index: an integer, or a [slice(start, stop, step)]
    object ([slice(None)] takes the whole axis). *)

Inductive selector : Type :=
| SelInt (i : Z)
| SelSlice (start stop step : option Z).

(** The two built-in sequence types a caller can hand over.  A list
    supports item assignment, a tuple does not. *)
Inductive seq_kind : Type := PyList | PyTuple.

(** The argument of [set_view_slice]: the [Ellipsis] singleton or a
    sequence of selectors. *)
Inductive index_arg : Type :=
| Ellipsis
| Indices (kind : seq_kind) (items : list selector).

(** [indices[:stop]] *)
Definition py_slice_to {A : Type} (l : list A) (stop : Z) : list A :=
  if 0 <=? stop then take (Z.to_nat stop) l
  else take (length l - Z.to_nat (- stop))%nat l.

(** [item > bound] for an integer bound: integers compare, a slice object
    does not support the comparison. *)
Definition py_gt (item : selector) (bound : Z) : outcome bool :=
  match item with
  | SelInt i => Return (bound <? i)
  | SelSlice _ _ _ => Raise TypeError
  end.

(** [seq[dim] = value] *)
Definition py_setitem (kind : seq_kind) (l : list selector) (dim : nat) (value : selector)
  : outcome (list selector) :=
  match kind with
  | PyTuple => Raise TypeError
  | PyList => if decide (dim < length l)%nat then Return (<[dim := value]> l) else Raise IndexError
  end.

(** [seq[dim]] *)
Definition py_getitem {A : Type} (l : list A) (dim : nat) : outcome A :=
  match l !! dim with
  | Some x => Return x
  | None => Raise IndexError
  end.

(** [a % b] on Python integers: the result has the sign of [b]. *)
Definition py_mod (a b : Z) : outcome Z :=
  if b =? 0 then Raise ZeroDivisionError else Return (a mod b).

(** [seq[i]] with negative indices counting from the end. *)
Definition py_index {A : Type} (l : list A) (i : Z) : outcome A :=
  let n := Z.of_nat (length l) in
  if (0 <=? i) && (i <? n) then py_getitem l (Z.to_nat i)
  else if (- n <=? i) && (i <? 0) then py_getitem l (Z.to_nat (n + i))
  else Raise IndexError.

(** [seq.index(x)]: position of the first occurrence, [ValueError] when
    absent. *)
Fixpoint list_index (x : string) (l : list string) : outcome Z :=
  match l with
  | [] => Raise ValueError
  | y :: l' => if decide (x = y) then Return 0 else obind (list_index x l') (fun i => Return (i + 1))
  end.

(** ** Metadata *)

Inductive meta_value : Type :=
| MStr (s : string)
| MInt (z : Z).

(** ** The scale/translate transform

    Four-component scale and translate vectors, and the two refresh calls
    the container makes on the transform, counted. *)

Record vec4 : Type := Vec4 { v0 : float; v1 : float; v2 : float; v3 : float }.

Record STTransform : Type := mkST {
  _scale : vec4;
  _translate : vec4;
  shader_updates : nat;     (* calls of tf._update_shaders() *)
  transform_updates : nat   (* calls of tf.update() *)
}.

(** [STTransform()] *)
Definition STTransform_new : STTransform :=
  mkST (Vec4 1 1 1 1) (Vec4 0 0 0 0) 0 0.

(** A transform is either of the scale/translate kind or of some other
    kind, named by its type. *)
Inductive transform_t : Type :=
| ST (tf : STTransform)
| OtherTransform (type_name : string).

Definition isinstance_STTransform (tf : transform_t) : bool :=
  match tf with
  | ST _ => true
  | OtherTransform _ => false
  end.

(** [tl[2] = x] on a four-component vector *)
Definition vec4_set2 (x : float) (v : vec4) : vec4 :=
  Vec4 (v0 v) (v1 v) x (v3 v).

(** Colour limits: ['auto'] or a pair of floats. *)
Inductive clim_t : Type :=
| ClimAuto
| ClimRange (lo hi : float).

(** ** Method bodies: state and exceptions

    A method body is run on the object's state and yields the state it
    leaves behind together with its outcome. *)

Definition M (State A : Type) : Type := State -> State * outcome A.

Definition ret {State A : Type} (a : A) : M State A := fun self => (self, Return a).
Definition raise {State A : Type} (e : exn) : M State A := fun self => (self, Raise e).
Definition bind {State A B : Type} (m : M State A) (k : A -> M State B) : M State B :=
  fun self =>
    match m self with
    | (self', Return a) => k a self'
    | (self', Raise e) => (self', Raise e)
    end.
Definition gets {State A : Type} (f : State -> A) : M State A :=
  fun self => (self, Return (f self)).
Definition modify {State : Type} (f : State -> State) : M State unit :=
  fun self => (f self, Return tt).
Definition lift {State A : Type} (o : outcome A) : M State A := fun self => (self, o).

Declare Scope py_scope.
Delimit Scope py_scope with py.

Notation "x <- c1 ;; c2" := (bind c1 (fun x => c2))
  (at level 100, c1 at next level, right associativity) : py_scope.
Notation "c1 ;; c2" := (bind c1 (fun _ => c2))
  (at level 100, right associativity) : py_scope.

(** A property's setter function as the interpreter sees it.  The
    assignment [obj.prop = value] calls it with the two positional
    arguments [(obj, value)]; a function declared with the single
    parameter [self] cannot take them, and the call raises [TypeError]
    before any of its body runs. *)
Inductive fset (State V : Type) : Type :=
| def_self_value (body : V -> M State unit)
| def_self (body : M State unit).

Arguments def_self_value {State V} body.
Arguments def_self {State V} body.

Definition assign {State V : Type} (f : fset State V) (value : V) : M State unit :=
  match f with
  | def_self_value body => body value
  | def_self _ => raise TypeError
  end.

(** ** The container and its collaborators *)

(** The visual node: the fields the container reads and writes, the array
    last handed to [set_data], and the number of [update()] calls. *)
Record Visual (array : Type) : Type := mkVisual {
  visual_data : option array;
  _need_colortransform_update : bool;
  visual_interpolation : string;
  visual_clim : clim_t;
  visual_cmap : string;
  visual_method : string;
  visual_transform : transform_t;
  visual_updates : nat
}.

Arguments mkVisual {array} _ _ _ _ _ _ _ _.
Arguments visual_data {array} _.
Arguments _need_colortransform_update {array} _.
Arguments visual_interpolation {array} _.
Arguments visual_clim {array} _.
Arguments visual_cmap {array} _.
Arguments visual_method {array} _.
Arguments visual_transform {array} _.
Arguments visual_updates {array} _.

(** What the module imports and does not define. *)
Class Externals : Type := {
  (** the array library: arrays, their [shape], and indexing with a tuple
      of selectors, which returns the selected sub-array or raises *)
  ndarray : Type;
  shape : ndarray -> list Z;
  getitem : ndarray -> list selector -> outcome ndarray;
  (** the helpers of [..util]: the two metadata predicates and the table of
      interpolation names *)
  is_multichannel : gmap string meta_value -> bool;
  guess_multichannel : list Z -> bool;
  interpolation_names : list string;
  (** [Image(None, parent=viewer.view.scene, method=m)]: the state of a
      visual as its constructor leaves it *)
  new_Image : string -> Visual ndarray
}.

Section Container.

Context {E : Externals}.

(** The instance attributes.  [indices] is [None] while the attribute
    has not been assigned; [_alpha] is the [alpha] field of the filter
    attached to the visual.  The parent viewer only supplies the scene
    the visual is parented to and is left out. *)
Record ImageContainer : Type := mkContainer {
  _image : ndarray;
  _meta : gmap string meta_value;
  visual : Visual ndarray;
  _alpha : float;
  _interpolation_index : Z;
  indices : option index_arg
}.

(** *** Field updates *)

Definition with_image (x : ndarray) (c : ImageContainer) : ImageContainer :=
  mkContainer x (_meta c) (visual c) (_alpha c) (_interpolation_index c) (indices c).
Definition with_meta (x : gmap string meta_value) (c : ImageContainer) : ImageContainer :=
  mkContainer (_image c) x (visual c) (_alpha c) (_interpolation_index c) (indices c).
Definition with_visual (x : Visual ndarray) (c : ImageContainer) : ImageContainer :=
  mkContainer (_image c) (_meta c) x (_alpha c) (_interpolation_index c) (indices c).
Definition with_alpha (x : float) (c : ImageContainer) : ImageContainer :=
  mkContainer (_image c) (_meta c) (visual c) x (_interpolation_index c) (indices c).
Definition with_interpolation_index (x : Z) (c : ImageContainer) : ImageContainer :=
  mkContainer (_image c) (_meta c) (visual c) (_alpha c) x (indices c).
Definition with_indices (x : index_arg) (c : ImageContainer) : ImageContainer :=
  mkContainer (_image c) (_meta c) (visual c) (_alpha c) (_interpolation_index c) (Some x).

Definition visual_set_data (x : ndarray) (v : Visual ndarray) : Visual ndarray :=
  mkVisual (Some x) (_need_colortransform_update v) (visual_interpolation v)
    (visual_clim v) (visual_cmap v) (visual_method v) (visual_transform v) (visual_updates v).
Definition visual_set_need (b : bool) (v : Visual ndarray) : Visual ndarray :=
  mkVisual (visual_data v) b (visual_interpolation v)
    (visual_clim v) (visual_cmap v) (visual_method v) (visual_transform v) (visual_updates v).
Definition visual_set_interpolation (x : string) (v : Visual ndarray) : Visual ndarray :=
  mkVisual (visual_data v) (_need_colortransform_update v) x
    (visual_clim v) (visual_cmap v) (visual_method v) (visual_transform v) (visual_updates v).
Definition visual_set_clim (x : clim_t) (v : Visual ndarray) : Visual ndarray :=
  mkVisual (visual_data v) (_need_colortransform_update v) (visual_interpolation v)
    x (visual_cmap v) (visual_method v) (visual_transform v) (visual_updates v).
Definition visual_set_cmap (x : string) (v : Visual ndarray) : Visual ndarray :=
  mkVisual (visual_data v) (_need_colortransform_update v) (visual_interpolation v)
    (visual_clim v) x (visual_method v) (visual_transform v) (visual_updates v).
Definition visual_set_method (x : string) (v : Visual ndarray) : Visual ndarray :=
  mkVisual (visual_data v) (_need_colortransform_update v) (visual_interpolation v)
    (visual_clim v) (visual_cmap v) x (visual_transform v) (visual_updates v).
Definition visual_set_transform (x : transform_t) (v : Visual ndarray) : Visual ndarray :=
  mkVisual (visual_data v) (_need_colortransform_update v) (visual_interpolation v)
    (visual_clim v) (visual_cmap v) (visual_method v) x (visual_updates v).
(** [visual.update()] *)
Definition visual_update (v : Visual ndarray) : Visual ndarray :=
  mkVisual (visual_data v) (_need_colortransform_update v) (visual_interpolation v)
    (visual_clim v) (visual_cmap v) (visual_method v) (visual_transform v) (S (visual_updates v)).

Local Open Scope py_scope.

(** *** image, meta, data_ndim, image_ndim, update *)

Definition image : M ImageContainer ndarray := gets _image.

Definition meta : M ImageContainer (gmap string meta_value) := gets _meta.

Definition data_ndim : M ImageContainer Z :=
  img <- image ;;
  ret (Z.of_nat (length (shape img))).

(** [self.data_ndim - is_multichannel(self.meta)]: the boolean counts as
    0 or 1. *)
Definition image_ndim : M ImageContainer Z :=
  n <- data_ndim ;;
  m <- meta ;;
  ret (n - Z.b2z (is_multichannel m)).

(** The value [image_ndim] reads off a state. *)
Definition ndim_of (self : ImageContainer) : Z :=
  Z.of_nat (length (shape (_image self))) - Z.b2z (is_multichannel (_meta self)).

Definition update : M ImageContainer unit :=
  modify (fun self => with_visual (visual_update (visual self)) self).

(** *** set_view_slice *)

(** One turn of the loop over [dim]: the clamping of [indices[dim]]. *)
Definition clamp_dim (kind : seq_kind) (shp : list Z) (indices : list selector) (dim : nat)
  : outcome (list selector) :=
  obind (py_getitem shp dim) (fun d =>
  let max_dim_index := d - 1 in
  except_TypeError_pass indices
    (obind (py_getitem indices dim) (fun item =>
     obind (py_gt item max_dim_index) (fun over =>
     if over then py_setitem kind indices dim (SelInt max_dim_index)
     else Return indices)))).

(** [for dim in dims: ...] *)
Fixpoint clamp_loop (kind : seq_kind) (shp : list Z) (dims : list nat) (indices : list selector)
  : outcome (list selector) :=
  match dims with
  | [] => Return indices
  | dim :: dims' => obind (clamp_dim kind shp indices dim) (clamp_loop kind shp dims')
  end.

(** The [else] branch up to the indexing: truncate, then clamp over
    [range(len(indices))].  The result is the index that is applied. *)
Definition applied_index (kind : seq_kind) (shp : list Z) (ndim : Z) (items : list selector)
  : outcome (list selector) :=
  let indices := py_slice_to items ndim in
  clamp_loop kind shp (seq 0 (length indices)) indices.

Definition set_view_slice (indices : index_arg) : M ImageContainer unit :=
  modify (with_indices indices) ;;
  ndim <- image_ndim ;;
  sliced_image <-
    match indices with
    | Ellipsis => image
    | Indices kind items =>
        img <- image ;;
        indices <- lift (applied_index kind (shape img) ndim items) ;;
        lift (getitem img indices)
    end ;;
  modify (fun self => with_visual (visual_set_data sliced_image (visual self)) self) ;;
  update.

(** *** refresh, set_image and the image and meta setters *)

(** Reading [self.indices]: the attribute exists once [set_view_slice]
    has assigned it. *)
Definition get_indices : M ImageContainer index_arg :=
  fun self =>
    match indices self with
    | Some i => (self, Return i)
    | None => (self, Raise AttributeError)
    end.

Definition refresh : M ImageContainer unit :=
  modify (fun self => with_visual (visual_set_need true (visual self)) self) ;;
  i <- get_indices ;;
  set_view_slice i.

Definition set_image (image : ndarray) (meta : option (gmap string meta_value))
    (multichannel : option bool) : M ImageContainer unit :=
  modify (with_image image) ;;
  match meta with
  | Some m => modify (with_meta m)
  | None => ret tt
  end ;;
  multichannel <-
    match multichannel with
    | None => ret (guess_multichannel (shape image))
    | Some b => ret b
    end ;;
  (if multichannel : bool
   then modify (fun self => with_meta (<["itype" := MStr "multi"]> (_meta self)) self)
   else ret tt) ;;
  refresh.

Definition image_fset : fset ImageContainer ndarray :=
  def_self_value (fun image => modify (with_image image) ;; refresh).

Definition meta_fset : fset ImageContainer (gmap string meta_value) :=
  def_self_value (fun meta => modify (with_meta meta) ;; refresh).


(** *** interpolation_index and interpolation *)

(** Modelled from the spec: [interpolation_index_to_name] of [..util],
    whose source is not available: the lookup of an index in the table of
    interpolation names. *)
Definition _index_to_name (index : Z) : outcome string :=
  py_index interpolation_names index.

(** Modelled from the spec: [interpolation_name_to_index] of [..util],
    whose source is not available: the lookup that translates a name into
    its index and signals an error for an unknown name. *)
Definition _name_to_index (name : string) : outcome Z :=
  list_index name interpolation_names.

Definition interpolation_index : M ImageContainer Z := gets _interpolation_index.

Definition interpolation_index_fset : fset ImageContainer Z :=
  def_self_value (fun interpolation_index =>
    intp_index <- lift (py_mod interpolation_index (Z.of_nat (length interpolation_names))) ;;
    modify (with_interpolation_index intp_index) ;;
    name <- lift (_index_to_name intp_index) ;;
    modify (fun self => with_visual (visual_set_interpolation name (visual self)) self)).

Definition interpolation : M ImageContainer string :=
  i <- interpolation_index ;;
  lift (_index_to_name i).

Definition interpolation_fset : fset ImageContainer string :=
  def_self_value (fun interpolation =>
    i <- lift (_name_to_index interpolation) ;;
    assign interpolation_index_fset i).

(** *** transparency *)

Definition transparency : M ImageContainer float := gets _alpha.

Definition transparency_fset : fset ImageContainer float :=
  def_self_value (fun transparency =>
    if negb ((0 <=? transparency)%float && (transparency <=? 1)%float)
    then raise ValueError
    else modify (with_alpha transparency) ;; update).

(** *** The wrapped visual properties *)

Definition clim : M ImageContainer clim_t := gets (fun self => visual_clim (visual self)).

(** [def clim(self): self.visual.clim = clim].  The body's right-hand side
    is a name bound neither in the function nor in the module. *)
Definition clim_fset : fset ImageContainer clim_t :=
  def_self (raise NameError).

Definition cmap : M ImageContainer string := gets (fun self => visual_cmap (visual self)).

Definition cmap_fset : fset ImageContainer string :=
  def_self_value (fun cmap =>
    modify (fun self => with_visual (visual_set_cmap cmap (visual self)) self)).

Definition method : M ImageContainer string := gets (fun self => visual_method (visual self)).

(** [def method(self): self.visual.method = method], as for [clim]. *)
Definition method_fset : fset ImageContainer string :=
  def_self (raise NameError).

Definition transform : M ImageContainer transform_t := gets (fun self => visual_transform (visual self)).

Definition transform_fset : fset ImageContainer (option transform_t) :=
  def_self_value (fun transform =>
    let transform :=
      match transform with
      | None => ST STTransform_new
      | Some tf => tf
      end in
    modify (fun self => with_visual (visual_set_transform transform (visual self)) self)).

(** *** The wrapped STTransform attributes *)

Definition _error_if_not_STTransform : M ImageContainer unit :=
  tf <- transform ;;
  if negb (isinstance_STTransform tf) then raise TypeError else ret tt.

(** Attribute access on the transform object: only a scale/translate
    transform has the vectors. *)
Definition transform_scale (tf : transform_t) : outcome vec4 :=
  match tf with
  | ST st => Return (_scale st)
  | OtherTransform _ => Raise AttributeError
  end.

Definition transform_translate (tf : transform_t) : outcome vec4 :=
  match tf with
  | ST st => Return (_translate st)
  | OtherTransform _ => Raise AttributeError
  end.

Definition put_transform (tf : transform_t) : M ImageContainer unit :=
  modify (fun self => with_visual (visual_set_transform tf (visual self)) self).

Definition scale : M ImageContainer vec4 :=
  _error_if_not_STTransform ;;
  tf <- transform ;;
  lift (transform_scale tf).

Definition scale_fset : fset ImageContainer vec4 :=
  def_self_value (fun vec =>
    _error_if_not_STTransform ;;
    tf <- transform ;;
    match tf with
    | ST st => put_transform (ST (mkST vec (_translate st) (shader_updates st) (transform_updates st)))
    | OtherTransform _ => raise AttributeError
    end).

Definition translate : M ImageContainer vec4 :=
  _error_if_not_STTransform ;;
  tf <- transform ;;
  lift (transform_translate tf).

Definition translate_fset : fset ImageContainer vec4 :=
  def_self_value (fun vec =>
    _error_if_not_STTransform ;;
    tf <- transform ;;
    match tf with
    | ST st => put_transform (ST (mkST (_scale st) vec (shader_updates st) (transform_updates st)))
    | OtherTransform _ => raise AttributeError
    end).

(** [-self.translate[2]] *)
Definition z_index : M ImageContainer float :=
  tl <- translate ;;
  ret (- v2 tl)%float.

(** The transform object is shared with the visual: the write to
    [tl[2]] and the two calls act on the transform the visual holds. *)
Definition z_index_fset : fset ImageContainer float :=
  def_self_value (fun index =>
    _error_if_not_STTransform ;;
    tf <- transform ;;
    match tf with
    | ST st =>
        put_transform
          (ST (mkST (_scale st) (vec4_set2 (- index)%float (_translate st))
                 (S (shader_updates st)) (S (transform_updates st))))
    | OtherTransform _ => raise AttributeError
    end).

(** *** The constructor *)

Definition __init__ (image : ndarray) (meta : gmap string meta_value) : outcome ImageContainer :=
  let self := mkContainer image meta (new_Image "auto") 1%float 0 None in
  match (assign interpolation_fset "nearest" ;; assign transform_fset (Some (ST STTransform_new))) self with
  | (self', Return _) => Return self'
  | (_, Raise e) => Raise e
  end.

End Container.

Arguments ImageContainer : clear implicits.
Arguments ImageContainer {E}.

(** ** A sample instance of the externals

    Used to run the methods on concrete inputs.  An array is represented by
    its shape and by the keys applied so far to the buffer it views, which
    is all the container can observe of it. *)

Record view : Type := mkView {
  view_shape : list Z;
  view_keys : list (list selector)
}.

(** Number of items a [slice(start, stop, step)] selects on an axis of
    length [n]. *)
Definition slice_length (start stop step : option Z) (n : Z) : outcome Z :=
  let step := default 1 step in
  if step =? 0 then Raise ValueError else
  let adjust (x : Z) : Z :=
    if x <? 0 then (if x + n <? 0 then (if step <? 0 then -1 else 0) else x + n)
    else if n <=? x then (if step <? 0 then n - 1 else n)
    else x in
  let start := match start with Some x => adjust x | None => if step <? 0 then n - 1 else 0 end in
  let stop := match stop with Some x => adjust x | None => if step <? 0 then -1 else n end in
  if step <? 0
  then Return (if stop <? start then (start - stop - 1) / (- step) + 1 else 0)
  else Return (if start <? stop then (stop - start - 1) / step + 1 else 0).

(** Shape of [a[key]] for an array of shape [shp]: an integer must lie in
    [-d, d) and removes its axis, a slice keeps its axis, and axes beyond
    the key are kept whole. *)
Fixpoint index_shape (shp : list Z) (key : list selector) : outcome (list Z) :=
  match key, shp with
  | [], _ => Return shp
  | _ :: _, [] => Raise IndexError
  | SelInt i :: key', d :: shp' =>
      if (- d <=? i) && (i <? d) then index_shape shp' key' else Raise IndexError
  | SelSlice start stop step :: key', d :: shp' =>
      obind (slice_length start stop step d) (fun n =>
      obind (index_shape shp' key') (fun rest => Return (n :: rest)))
  end.

Definition view_getitem (a : view) (key : list selector) : outcome view :=
  obind (index_shape (view_shape a) key) (fun shp =>
  Return (mkView shp (view_keys a ++ [key]))).

(** Metadata tagged ['multi'] under ['itype'] marks a multichannel image. *)
Definition sample_is_multichannel (m : gmap string meta_value) : bool :=
  match m !! "itype" with
  | Some (MStr "multi") => true
  | _ => false
  end.

(** A trailing axis of length 3 or 4 is taken for the channels. *)
Definition sample_guess_multichannel (shp : list Z) : bool :=
  match last shp with
  | Some d => (d =? 3) || (d =? 4)
  | None => false
  end.

Definition sample_names : list string :=
  ["bicubic"; "bilinear"; "gaussian"; "nearest"; "spline16"].

Definition sample_new_Image (method : string) : Visual view :=
  mkVisual None false "nearest" ClimAuto "grays" method (OtherTransform "NullTransform") 0.

#[export] Instance sample : Externals := {
  ndarray := view;
  shape := view_shape;
  getitem := view_getitem;
  is_multichannel := sample_is_multichannel;
  guess_multichannel := sample_guess_multichannel;
  interpolation_names := sample_names;
  new_Image := sample_new_Image
}.

(** A container over an image of shape (10, 20) with empty metadata, as the
    constructor leaves it. *)
Definition fresh_10_20 : ImageContainer (E := sample) :=
  match __init__ (mkView [10; 20] []) ∅ with
  | Return c => c
  | Raise _ => mkContainer (mkView [] []) ∅ (sample_new_Image "auto") 0 0 None
  end.

(** The same container after a transform of another kind has been
    assigned to it. *)
Definition matrix_10_20 : ImageContainer (E := sample) :=
  fst (assign transform_fset (Some (OtherTransform "MatrixTransform")) fresh_10_20).

(** The container after [set_view_slice([15, 5])]. *)
Definition sliced_10_20 : ImageContainer (E := sample) :=
  fst (set_view_slice (Indices PyList [SelInt 15; SelInt 5]) fresh_10_20).

(** ** The clamping the specification prescribes

    An integer entry above the last valid position of its axis becomes that
    position; every other entry is left as it is. *)

Definition clamp_selector (item : selector) (d : Z) : selector :=
  match item with
  | SelInt i => SelInt (Z.min i (d - 1))
  | SelSlice start stop step => SelSlice start stop step
  end.

(** Truncation to [ndim] entries followed by the clamping of each entry
    against its axis. *)
Definition clamped_index (shp : list Z) (ndim : Z) (items : list selector) : list selector :=
  zip_with clamp_selector (take (Z.to_nat ndim) items) shp.

(** ** The title, and the calls a client can make *)

(** [str(x)] for a metadata value. *)
Definition str_meta_value (v : meta_value) : string :=
  match v with
  | MStr s => s
  | MInt z => pretty z
  end.

(** [sep.join(parts)] *)
Fixpoint str_join (sep : string) (parts : list string) : string :=
  match parts with
  | [] => ""
  | [part] => part
  | part :: rest => part +:+ sep +:+ str_join sep rest
  end.

(** [str(t)] for a tuple of integers: [()], [(3,)], [(3, 4)]. *)
Definition str_tuple (t : list Z) : string :=
  match t with
  | [] => "()"
  | [x] => "(" +:+ pretty x +:+ ",)"
  | _ => "(" +:+ str_join ", " (pretty <$> t) +:+ ")"
  end.

Section Title.

Context {E : Externals}.

Local Open Scope py_scope.

(** The [try] around [self.meta['name']] catches the [KeyError] of a
    missing key and leaves [info] as it was. *)
Definition __str__ : M ImageContainer string :=
  let info := ["image"] in
  m <- meta ;;
  let info :=
    match m !! "name" with
    | Some name => info ++ [str_meta_value name]
    | None => info
    end in
  img <- image ;;
  let info := info ++ [str_tuple (shape img)] in
  name <- interpolation ;;
  let info := info ++ [name] in
  ret (str_join " " info).

Definition __repr__ : M ImageContainer string :=
  s <- __str__ ;;
  ret ("ImageContainer: " +:+ s).

Definition interpolation_functions : M ImageContainer (list string) :=
  ret interpolation_names.

(** What [set_view_slice] computes before it touches the visual: the
    array that is to be displayed, or the exception on the way to it. *)
Definition slice_of (indices : index_arg) (self : ImageContainer) : outcome ndarray :=
  match indices with
  | Ellipsis => Return (_image self)
  | Indices kind items =>
      obind (applied_index kind (shape (_image self)) (ndim_of self) items)
        (getitem (_image self))
  end.

(** The calls and property assignments that can change a container. *)
Inductive call : Type :=
| call_set_view_slice (indices : index_arg)
| call_set_image (image : ndarray) (meta : option (gmap string meta_value))
    (multichannel : option bool)
| call_update
| call_refresh
| assign_image (image : ndarray)
| assign_meta (meta : gmap string meta_value)
| assign_interpolation_index (interpolation_index : Z)
| assign_interpolation (interpolation : string)
| assign_transparency (transparency : float)
| assign_clim (clim : clim_t)
| assign_cmap (cmap : string)
| assign_method (method : string)
| assign_transform (transform : option transform_t)
| assign_scale (vec : vec4)
| assign_translate (vec : vec4)
| assign_z_index (index : float).

Definition run (k : call) : M ImageContainer unit :=
  match k with
  | call_set_view_slice indices => set_view_slice indices
  | call_set_image image meta multichannel => set_image image meta multichannel
  | call_update => update
  | call_refresh => refresh
  | assign_image image => assign image_fset image
  | assign_meta meta => assign meta_fset meta
  | assign_interpolation_index i => assign interpolation_index_fset i
  | assign_interpolation name => assign interpolation_fset name
  | assign_transparency t => assign transparency_fset t
  | assign_clim v => assign clim_fset v
  | assign_cmap v => assign cmap_fset v
  | assign_method v => assign method_fset v
  | assign_transform tf => assign transform_fset tf
  | assign_scale vec => assign scale_fset vec
  | assign_translate vec => assign translate_fset vec
  | assign_z_index index => assign z_index_fset index
  end.

(** The states a container can be in: the one the constructor returns,
    and the one any call leaves behind, whether it returned or raised. *)
Inductive reachable : ImageContainer -> Prop :=
| reachable_init (image : ndarray) (meta : gmap string meta_value) (self : ImageContainer) :
    __init__ image meta = Return self -> reachable self
| reachable_call (k : call) (self : ImageContainer) :
    reachable self -> reachable (fst (run k self)).

(** The container's interpolation index points into the table, at the
    name the visual holds. *)
Definition interpolation_in_sync (self : ImageContainer) : Prop :=
  0 <= _interpolation_index self < Z.of_nat (length interpolation_names) /\
  interpolation_names !! Z.to_nat (_interpolation_index self)
  = Some (visual_interpolation (visual self)).

(** The stored alpha passes the test of the [transparency] setter. *)
Definition transparency_in_range (self : ImageContainer) : Prop :=
  (0 <=? _alpha self)%float && (_alpha self <=? 1)%float = true.

End Title.

(** A container over a multichannel image of shape (10, 20, 3), reached by
    [set_image] after a first [set_view_slice]. *)
Definition multi_10_20_3 : ImageContainer (E := sample) :=
  fst (set_image (mkView [10; 20; 3] []) None None sliced_10_20).

(** The sample externals with a table that lacks ['nearest']. *)
Definition sample_without_nearest : Externals := {|
  ndarray := view;
  shape := view_shape;
  getitem := view_getitem;
  is_multichannel := sample_is_multichannel;
  guess_multichannel := sample_guess_multichannel;
  interpolation_names := ["bicubic"; "bilinear"];
  new_Image := sample_new_Image
|}.

(** A container over a scalar (rank 0) whose metadata is tagged
    multichannel. *)
Definition scalar_multi : ImageContainer (E := sample) :=
  match __init__ (mkView [] []) {["itype" := MStr "multi"]} with
  | Return c => c
  | Raise _ => mkContainer (mkView [] []) ∅ (sample_new_Image "auto") 0 0 None
  end.

(** A container over a named image of shape (10, 20, 3). *)
Definition named_10_20_3 : ImageContainer (E := sample) :=
  match __init__ (mkView [10; 20; 3] []) {["name" := MStr "cells"]} with
  | Return c => c
  | Raise _ => mkContainer (mkView [] []) ∅ (sample_new_Image "auto") 0 0 None
  end.

(** * Properties *)

(** ** The clamping loop *)

Lemma clamp_dim_list (shp : list Z) (l : list selector) (dim : nat) (d : Z) (item : selector) :
  shp !! dim = Some d ->
  l !! dim = Some item ->
  clamp_dim PyList shp l dim = Return (<[dim := clamp_selector item d]> l).
Proof.
  intros Hd Hitem. unfold clamp_dim, py_getitem. rewrite Hd, Hitem. cbn.
  destruct item as [i | a b c]; cbn.
  - destruct (Z.ltb_spec (d - 1) i) as [Hlt | Hge]; cbn.
    + destruct (decide (dim < length l)%nat) as [_ | Hn].
      * cbn. rewrite Z.min_r by lia. reflexivity.
      * exfalso. apply Hn. eapply lookup_lt_Some. exact Hitem.
    + rewrite Z.min_l by lia. rewrite list_insert_id by exact Hitem. reflexivity.
  - rewrite list_insert_id by exact Hitem. reflexivity.
Qed.

Lemma clamp_dim_tuple (shp : list Z) (l : list selector) (dim : nat) (d : Z) (item : selector) :
  shp !! dim = Some d ->
  l !! dim = Some item ->
  clamp_dim PyTuple shp l dim = Return l.
Proof.
  intros Hd Hitem. unfold clamp_dim, py_getitem. rewrite Hd, Hitem. cbn.
  destruct item as [i | a b c]; cbn; [ | reflexivity].
  destruct (d - 1 <? i); reflexivity.
Qed.

Lemma clamp_loop_list (shp : list Z) (n : nat) :
  forall (k : nat) (l : list selector),
    (k + n = length l)%nat ->
    (length l <= length shp)%nat ->
    clamp_loop PyList shp (seq k n) l
    = Return (take k l ++ zip_with clamp_selector (drop k l) (drop k shp)).
Proof.
  induction n as [ | n IH]; intros k l Hlen Hshp; cbn.
  - rewrite (drop_ge l k) by lia. cbn. rewrite app_nil_r, take_ge by lia. reflexivity.
  - destruct (lookup_lt_is_Some_2 l k) as [item Hitem]; [lia | ].
    destruct (lookup_lt_is_Some_2 shp k) as [d Hd]; [lia | ].
    rewrite (clamp_dim_list shp l k d item Hd Hitem). cbn.
    rewrite IH by (rewrite ?length_insert; lia).
    f_equal.
    rewrite (drop_S l item k Hitem), (drop_S shp d k Hd). cbn.
    rewrite (take_S_r (<[k:=clamp_selector item d]> l) k (clamp_selector item d)).
    + rewrite take_insert_ge by lia. rewrite drop_insert_lt by lia.
      rewrite <- app_assoc. reflexivity.
    + apply list_lookup_insert_eq. eapply lookup_lt_Some. exact Hitem.
Qed.

Lemma clamp_loop_tuple (shp : list Z) (n : nat) :
  forall (k : nat) (l : list selector),
    (k + n = length l)%nat ->
    (length l <= length shp)%nat ->
    clamp_loop PyTuple shp (seq k n) l = Return l.
Proof.
  induction n as [ | n IH]; intros k l Hlen Hshp; cbn; [reflexivity | ].
  destruct (lookup_lt_is_Some_2 l k) as [item Hitem]; [lia | ].
  destruct (lookup_lt_is_Some_2 shp k) as [d Hd]; [lia | ].
  rewrite (clamp_dim_tuple shp l k d item Hd Hitem). cbn.
  apply IH; lia.
Qed.

Lemma applied_index_list (shp : list Z) (ndim : Z) (items : list selector) :
  0 <= ndim <= Z.of_nat (length shp) ->
  applied_index PyList shp ndim items = Return (clamped_index shp ndim items).
Proof.
  intros [H0 Hn]. unfold applied_index, clamped_index, py_slice_to.
  destruct (Z.leb_spec 0 ndim) as [_ | ?]; [ | lia].
  rewrite clamp_loop_list by (rewrite ?length_take; lia).
  rewrite take_0, !drop_0. reflexivity.
Qed.

Lemma applied_index_tuple (shp : list Z) (ndim : Z) (items : list selector) :
  0 <= ndim <= Z.of_nat (length shp) ->
  applied_index PyTuple shp ndim items = Return (take (Z.to_nat ndim) items).
Proof.
  intros [H0 Hn]. unfold applied_index, py_slice_to.
  destruct (Z.leb_spec 0 ndim) as [_ | ?]; [ | lia].
  apply clamp_loop_tuple; rewrite ?length_take; lia.
Qed.

(** An integer entry that the clamping has treated does not exceed the last
    position of its axis. *)
Lemma clamped_index_bound (shp : list Z) (ndim : Z) (items : list selector) (dim : nat) (i : Z) :
  clamped_index shp ndim items !! dim = Some (SelInt i) ->
  exists d, shp !! dim = Some d /\ i <= d - 1.
Proof.
  unfold clamped_index. rewrite lookup_zip_with.
  destruct (take (Z.to_nat ndim) items !! dim) as [item | ]; [ | discriminate].
  destruct (shp !! dim) as [d | ]; [ | discriminate].
  cbn. destruct item as [j | a b c]; cbn; [ | discriminate].
  intros [= <-]. exists d. split; [reflexivity | lia].
Qed.

(** Negation of a float flips the sign and nothing else, so negating twice
    gives the float back. *)
Lemma float_opp_involutive (x : float) : (- - x)%float = x.
Proof.
  rewrite <- (SF2Prim_Prim2SF (- - x)), !opp_spec.
  rewrite <- (SF2Prim_Prim2SF x) at 2.
  f_equal. destruct (Prim2SF x) as [ [ | ] | [ | ] | | [ | ] m e]; reflexivity.
Qed.

Section Properties.

Context {E : Externals}.

Local Open Scope py_scope.

Implicit Types (c self : ImageContainer) (items : list selector).

Ltac run :=
  unfold assign, bind, modify, gets, ret, raise, lift; cbn.

(** ** Reading the dimensions *)

Lemma data_ndim_run c :
  data_ndim c = (c, Return (Z.of_nat (length (shape (_image c))))).
Proof. reflexivity. Qed.

Lemma image_ndim_run c :
  image_ndim c
  = (c, Return (Z.of_nat (length (shape (_image c))) - Z.b2z (is_multichannel (_meta c)))).
Proof. reflexivity. Qed.

(** ** set_view_slice *)


(** X1: when [image_ndim] is not negative and the index is given as a list,
    the key handed to the array is the list truncated to [image_ndim]
    entries with every integer entry above [dimension_length - 1] replaced
    by that bound and every other entry as it was; the original list is
    what is stored, and on successful indexing the slice goes to the visual,
    which is then updated. *)
Theorem set_view_slice_list items c :
  0 <= ndim_of c ->
  set_view_slice (Indices PyList items) c
  = match getitem (_image c) (clamped_index (shape (_image c)) (ndim_of c) items) with
    | Return sliced_image =>
        (with_visual (visual_update (visual_set_data sliced_image (visual c)))
           (with_indices (Indices PyList items) c), Return tt)
    | Raise e => (with_indices (Indices PyList items) c, Raise e)
    end.
Proof.
  intros Hn. unfold set_view_slice, image_ndim, data_ndim, image, meta. run.
  fold (ndim_of c).
  rewrite applied_index_list by (unfold ndim_of in *; destruct (is_multichannel _); cbn in *; lia).
  cbn. destruct (getitem _ _); reflexivity.
Qed.

(** X2: when [image_ndim] is not negative and the index is given as a
    tuple, the key handed to the array is the tuple truncated to
    [image_ndim] entries and nothing else: no entry is clamped. *)
Theorem set_view_slice_tuple items c :
  0 <= ndim_of c ->
  set_view_slice (Indices PyTuple items) c
  = match getitem (_image c) (take (Z.to_nat (ndim_of c)) items) with
    | Return sliced_image =>
        (with_visual (visual_update (visual_set_data sliced_image (visual c)))
           (with_indices (Indices PyTuple items) c), Return tt)
    | Raise e => (with_indices (Indices PyTuple items) c, Raise e)
    end.
Proof.
  intros Hn. unfold set_view_slice, image_ndim, data_ndim, image, meta. run.
  fold (ndim_of c).
  rewrite applied_index_tuple by (unfold ndim_of in *; destruct (is_multichannel _); cbn in *; lia).
  cbn. destruct (getitem _ _); reflexivity.
Qed.

(** [set_view_slice] touches the stored index and the visual only. *)
Lemma set_view_slice_frame (i : index_arg) c :
  let c' := fst (set_view_slice i c) in
  _image c' = _image c /\ _meta c' = _meta c /\ _alpha c' = _alpha c
  /\ _interpolation_index c' = _interpolation_index c /\ indices c' = Some i.
Proof.
  unfold set_view_slice, image_ndim, data_ndim, image, meta, update. run.
  destruct i as [ | kind items]; cbn; [repeat split | ].
  destruct (applied_index _ _ _ _) as [key | e]; cbn; [ | repeat split].
  destruct (getitem _ _); cbn; repeat split.
Qed.

(** ** image_ndim *)

(** C5: in every container state, [image_ndim] is [data_ndim - 1] when the
    metadata marks the image as multichannel and [data_ndim] otherwise,
    where [data_ndim] is the rank of the stored array. *)
Theorem image_ndim_multichannel c :
  exists rank : Z,
    rank = Z.of_nat (length (shape (_image c))) /\
    data_ndim c = (c, Return rank) /\
    image_ndim c = (c, Return (if is_multichannel (_meta c) then rank - 1 else rank)).
Proof.
  eexists. split; [reflexivity | ]. split; [reflexivity | ].
  rewrite image_ndim_run. destruct (is_multichannel (_meta c)); cbn; do 2 f_equal; lia.
Qed.

(** ** transparency *)

(** C2: a transparency [t] with [0 <= t <= 1] is stored in the alpha filter
    and read back unchanged; for any other [t] the assignment raises
    [ValueError] and leaves the state, the stored alpha included, as it
    was. *)
Theorem transparency_set_get (t : float) c :
  ((0 <=? t)%float && (t <=? 1)%float = true ->
   exists c',
     assign transparency_fset t c = (c', Return tt) /\
     transparency c' = (c', Return t) /\
     _alpha c' = t /\
     visual_updates (visual c') = S (visual_updates (visual c)))
  /\
  ((0 <=? t)%float && (t <=? 1)%float = false ->
   assign transparency_fset t c = (c, Raise ValueError)).
Proof.
  split; intros Ht; cbn; rewrite Ht; cbn.
  - eexists. split; [reflexivity | ]. repeat split.
  - reflexivity.
Qed.

(** ** interpolation_index *)

Lemma py_index_in_range (l : list string) (i : Z) :
  0 <= i < Z.of_nat (length l) ->
  exists name, py_index l i = Return name /\ l !! Z.to_nat i = Some name.
Proof.
  intros Hi. unfold py_index, py_getitem.
  destruct (Z.leb_spec 0 i); [ | lia]. destruct (Z.ltb_spec i (Z.of_nat (length l))); [ | lia].
  cbn. destruct (lookup_lt_is_Some_2 l (Z.to_nat i)) as [name Hname]; [lia | ].
  exists name. rewrite Hname. split; reflexivity.
Qed.

(** C6: with a non-empty table of names, assigning any integer [i] to
    [interpolation_index] succeeds, and reading it back gives
    [i mod len(interpolation_names)], which lies in [0, len); the name at
    that position goes to the visual. *)
Theorem interpolation_index_wraps (i : Z) c :
  interpolation_names <> [] ->
  exists c' name,
    assign interpolation_index_fset i c = (c', Return tt) /\
    interpolation_index c' = (c', Return (i mod Z.of_nat (length interpolation_names))) /\
    0 <= i mod Z.of_nat (length interpolation_names) < Z.of_nat (length interpolation_names) /\
    interpolation_names !! Z.to_nat (i mod Z.of_nat (length interpolation_names)) = Some name /\
    visual_interpolation (visual c') = name.
Proof.
  intros Hne.
  assert (Hlen : 0 < Z.of_nat (length interpolation_names)).
  { destruct interpolation_names; [congruence | cbn; lia]. }
  pose proof (Z.mod_pos_bound i _ Hlen) as Hmod.
  destruct (py_index_in_range interpolation_names _ Hmod) as (name & Hname & Hlook).
  cbn. run. unfold py_mod.
  destruct (Z.eqb_spec (Z.of_nat (length interpolation_names)) 0) as [H0 | _]; [lia | ].
  cbn. unfold _index_to_name. rewrite Hname. cbn.
  eexists _, name. split; [reflexivity | ]. repeat split; try assumption; lia.
Qed.

(** ** interpolation *)

Lemma list_index_found (x : string) (l : list string) (i : Z) :
  list_index x l = Return i ->
  0 <= i < Z.of_nat (length l) /\ l !! Z.to_nat i = Some x.
Proof.
  revert i. induction l as [ | y l IH]; intros i; cbn; [discriminate | ].
  destruct (decide (x = y)) as [-> | Hne].
  - intros [= <-]. split; [lia | reflexivity].
  - destruct (list_index x l) as [j | e]; cbn; [ | discriminate].
    intros [= <-]. destruct (IH j eq_refl) as [Hj Hlook].
    split; [lia | ].
    replace (Z.to_nat (j + 1)) with (S (Z.to_nat j)) by lia. exact Hlook.
Qed.

Lemma list_index_elem_of (x : string) (l : list string) :
  x ∈ l -> exists i, list_index x l = Return i.
Proof.
  induction l as [ | y l IH]; intros Hin; [inversion Hin | ].
  cbn. destruct (decide (x = y)) as [-> | Hne]; [eexists; reflexivity | ].
  apply elem_of_cons in Hin as [Heq | Hin]; [contradiction | ].
  destruct (IH Hin) as [i ->]. eexists. reflexivity.
Qed.

(** X4: assigning a name of the table to [interpolation] succeeds, and
    reading [interpolation] afterwards gives that name back. *)
Theorem interpolation_round_trip (name : string) c :
  name ∈ interpolation_names ->
  exists c',
    assign interpolation_fset name c = (c', Return tt) /\
    interpolation c' = (c', Return name) /\
    visual_interpolation (visual c') = name.
Proof.
  intros Hin. destruct (list_index_elem_of _ _ Hin) as [i Hi].
  destruct (list_index_found _ _ _ Hi) as [Hrange Hlook].
  cbn. run. unfold _name_to_index, py_mod, _index_to_name. rewrite Hi. cbn.
  destruct (Z.eqb_spec (Z.of_nat (length interpolation_names)) 0) as [H0 | _]; [lia | ].
  cbn. rewrite Z.mod_small by exact Hrange.
  destruct (py_index_in_range interpolation_names i Hrange) as (name' & Hname & Hlook').
  assert (name' = name) as -> by congruence.
  rewrite Hname. cbn.
  eexists. split; [reflexivity | ].
  unfold interpolation, interpolation_index. run. unfold _index_to_name.
  rewrite Hname. split; reflexivity.
Qed.

(** ** The scale/translate wrappers *)

(** C7: when the active transform is a scale/translate transform,
    assigning [k] to [z_index] stores [-k] in the third translation
    component and reading [z_index] afterwards gives [k]. *)
Theorem z_index_round_trip (k : float) c (st : STTransform) :
  visual_transform (visual c) = ST st ->
  exists c',
    assign z_index_fset k c = (c', Return tt) /\
    visual_transform (visual c')
    = ST (mkST (_scale st) (vec4_set2 (- k)%float (_translate st))
            (S (shader_updates st)) (S (transform_updates st))) /\
    z_index c' = (c', Return k).
Proof.
  intros Hst. cbn. unfold _error_if_not_STTransform, transform, put_transform. run.
  rewrite !Hst. cbn. rewrite !Hst.
  eexists. split; [reflexivity | ]. split; [reflexivity | ].
  unfold z_index, translate, _error_if_not_STTransform, transform. run.
  rewrite float_opp_involutive. reflexivity.
Qed.

(** C8: when the active transform is not a scale/translate transform,
    reading or assigning [scale], reading or assigning [translate], and
    assigning [z_index] each raise [TypeError] and leave the state, the
    transform included, as it was. *)
Theorem not_STTransform_raises c :
  isinstance_STTransform (visual_transform (visual c)) = false ->
  scale c = (c, Raise TypeError) /\
  (forall vec, assign scale_fset vec c = (c, Raise TypeError)) /\
  translate c = (c, Raise TypeError) /\
  (forall vec, assign translate_fset vec c = (c, Raise TypeError)) /\
  (forall index, assign z_index_fset index c = (c, Raise TypeError)).
Proof.
  intros Hnot.
  repeat split; intros; cbn;
    unfold scale, translate, _error_if_not_STTransform, transform; run;
    rewrite Hnot; reflexivity.
Qed.

(** ** refresh and set_image *)

(** [refresh] leaves the image and the metadata alone, whether it returns
    or raises. *)
Lemma refresh_frame c :
  _image (fst (refresh c)) = _image c /\ _meta (fst (refresh c)) = _meta c.
Proof.
  unfold refresh, get_indices, bind, modify.
  destruct (indices (with_visual (visual_set_need true (visual c)) c)) as [i | ] eqn:Hi.
  - pose proof (set_view_slice_frame i (with_visual (visual_set_need true (visual c)) c))
      as (Himg & Hmeta & _).
    cbn zeta in Himg, Hmeta. rewrite Himg, Hmeta. split; reflexivity.
  - split; reflexivity.
Qed.


(** With no stored index, [refresh] raises [AttributeError]. *)
Lemma refresh_without_indices c :
  indices c = None -> snd (refresh c) = Raise AttributeError.
Proof.
  intros Hnone. unfold refresh, get_indices, bind, modify. cbn. rewrite Hnone. reflexivity.
Qed.

(** The state in which [set_image] enters [refresh]. *)
Lemma set_image_run (image : ndarray) (meta : option (gmap string meta_value))
    (multichannel : option bool) c :
  set_image image meta multichannel c
  = refresh
      (let self := with_image image c in
       let self := match meta with Some m => with_meta m self | None => self end in
       if default (guess_multichannel (shape image)) multichannel
       then with_meta (<["itype" := MStr "multi"]> (_meta self)) self
       else self).
Proof.
  unfold set_image, bind, modify, ret.
  destruct meta as [m | ], multichannel as [[ | ] | ]; cbn;
    try destruct (guess_multichannel (shape image)); reflexivity.
Qed.

(** The image and the metadata [set_image] leaves behind. *)
Lemma set_image_state (image : ndarray) (new_meta : option (gmap string meta_value))
    (multichannel : option bool) c :
  _image (fst (set_image image new_meta multichannel c)) = image /\
  _meta (fst (set_image image new_meta multichannel c))
  = if default (guess_multichannel (shape image)) multichannel
    then <["itype" := MStr "multi"]> (default (_meta c) new_meta)
    else default (_meta c) new_meta.
Proof.
  rewrite set_image_run.
  match goal with |- context [refresh ?s] => destruct (refresh_frame s) as [-> ->] end.
  destruct new_meta, (default (guess_multichannel (shape image)) multichannel);
    split; reflexivity.
Qed.

(** C9: [set_image] with [multichannel=None] on a shape for which the
    heuristic answers true leaves ['itype'] bound to ['multi'] in the
    metadata; with [multichannel=False] the metadata is the mapping passed
    in, or the prior one when none is passed, with no key written; and with
    [meta=None] the prior mapping is kept, gaining the tag exactly when the
    image is taken as multichannel.  This holds whether the closing
    [refresh] returns or raises. *)
Theorem set_image_multichannel_tag (image : ndarray) c :
  (forall new_meta,
     guess_multichannel (shape image) = true ->
     _meta (fst (set_image image new_meta None c)) !! "itype" = Some (MStr "multi")) /\
  (forall new_meta,
     _meta (fst (set_image image new_meta (Some false) c)) = default (_meta c) new_meta) /\
  (forall multichannel,
     _meta (fst (set_image image None multichannel c))
     = if default (guess_multichannel (shape image)) multichannel
       then <["itype" := MStr "multi"]> (_meta c)
       else _meta c) /\
  (forall new_meta multichannel,
     _image (fst (set_image image new_meta multichannel c)) = image).
Proof.
  split; [ | split; [ | split]].
  - intros new_meta Hguess.
    destruct (set_image_state image new_meta None c) as [_ ->].
    cbn. rewrite Hguess. apply lookup_insert_eq.
  - intros new_meta. destruct (set_image_state image new_meta (Some false) c) as [_ ->].
    reflexivity.
  - intros multichannel. destruct (set_image_state image None multichannel c) as [_ ->].
    reflexivity.
  - intros new_meta multichannel.
    destruct (set_image_state image new_meta multichannel c) as [-> _]. reflexivity.
Qed.

(** ** The constructor *)

(** The constructor assigns no [indices] attribute. *)
Lemma init_indices (image : ndarray) (m : gmap string meta_value) c :
  __init__ image m = Return c -> indices c = None.
Proof.
  unfold __init__. cbn. run. unfold _name_to_index, py_mod, _index_to_name.
  destruct (list_index _ _) as [i | e]; cbn; [ | discriminate].
  destruct (_ =? 0); cbn; [discriminate | ].
  destruct (py_index _ _) as [name | e]; cbn; [ | discriminate].
  intros [= <-]. reflexivity.
Qed.

(** C4: on a container as the constructor leaves it, [refresh] raises
    [AttributeError], and so do [set_image] and the assignments to [image]
    and [meta], which all end in [refresh]: the constructor never assigns
    the stored index that [refresh] replays. *)
Theorem fresh_container_refresh_raises (image : ndarray) (m : gmap string meta_value) c :
  __init__ image m = Return c ->
  indices c = None /\
  snd (refresh c) = Raise AttributeError /\
  (forall image' new_meta multichannel,
     snd (set_image image' new_meta multichannel c) = Raise AttributeError) /\
  (forall image', snd (assign image_fset image' c) = Raise AttributeError) /\
  (forall m', snd (assign meta_fset m' c) = Raise AttributeError).
Proof.
  intros Hinit. pose proof (init_indices image m c Hinit) as Hnone.
  split; [exact Hnone | ]. split; [apply refresh_without_indices, Hnone | ].
  split; [ | split].
  - intros image' new_meta multichannel. rewrite set_image_run.
    apply refresh_without_indices.
    destruct new_meta, (default (guess_multichannel (shape image')) multichannel); exact Hnone.
  - intros image'. apply (refresh_without_indices (with_image image' c)). exact Hnone.
  - intros m'. apply (refresh_without_indices (with_meta m' c)). exact Hnone.
Qed.

End Properties.

(** * The methods on concrete inputs *)

(** ** set_view_slice on a list and on a tuple *)

(** C1: on an image of shape (10, 20) the list [[15, 5]] is applied as
    [[9, 5]] and the slice reaches the visual, as the claim says; the same
    index given as the tuple [(15, 5)] is truncated but not clamped, since
    the item assignment raises the [TypeError] that the [except] clause
    swallows: the key stays [(15, 5)], indexing raises [IndexError] and
    nothing is pushed to the visual. *)
Theorem set_view_slice_tuple_unclamped :
  applied_index PyList [10; 20] 2 [SelInt 15; SelInt 5] = Return [SelInt 9; SelInt 5] /\
  set_view_slice (Indices PyList [SelInt 15; SelInt 5]) fresh_10_20
  = (with_visual
       (visual_update
          (visual_set_data (mkView [] [[SelInt 9; SelInt 5]]) (visual fresh_10_20)))
       (with_indices (Indices PyList [SelInt 15; SelInt 5]) fresh_10_20),
     Return tt) /\
  applied_index PyTuple [10; 20] 2 [SelInt 15; SelInt 5] = Return [SelInt 15; SelInt 5] /\
  set_view_slice (Indices PyTuple [SelInt 15; SelInt 5]) fresh_10_20
  = (with_indices (Indices PyTuple [SelInt 15; SelInt 5]) fresh_10_20, Raise IndexError).
Proof. repeat split. Qed.

(** C10: with a slice object in the sequence the clamping loop does not
    raise and the slice passes through.  Given as a list, the integer entry
    25 next to it is clamped to 19; given as a tuple, it is not: the key
    keeps 25 and indexing raises [IndexError]. *)
Theorem set_view_slice_slice_entry :
  applied_index PyList [10; 20] 2 [SelSlice None None None; SelInt 25]
  = Return [SelSlice None None None; SelInt 19] /\
  snd (set_view_slice (Indices PyList [SelSlice None None None; SelInt 25]) fresh_10_20)
  = Return tt /\
  applied_index PyTuple [10; 20] 2 [SelSlice None None None; SelInt 25]
  = Return [SelSlice None None None; SelInt 25] /\
  set_view_slice (Indices PyTuple [SelSlice None None None; SelInt 25]) fresh_10_20
  = (with_indices (Indices PyTuple [SelSlice None None None; SelInt 25]) fresh_10_20,
     Raise IndexError).
Proof. repeat split. Qed.

(** ** The clim and method setters *)

(** C3: reading [clim] and [method] forwards to the visual, but assigning
    them does not: both setter functions are declared with the single
    parameter [self], so the assignment raises [TypeError] and the visual
    keeps its field.  The [cmap] setter next to them, declared with
    [(self, cmap)], does forward. *)
Theorem clim_method_assignment_raises :
  clim fresh_10_20 = (fresh_10_20, Return (visual_clim (visual fresh_10_20))) /\
  method fresh_10_20 = (fresh_10_20, Return (visual_method (visual fresh_10_20))) /\
  assign clim_fset (ClimRange 0 1) fresh_10_20 = (fresh_10_20, Raise TypeError) /\
  assign method_fset "impostor" fresh_10_20 = (fresh_10_20, Raise TypeError) /\
  visual_cmap (visual (fst (assign cmap_fset "hot" fresh_10_20))) = "hot".
Proof. repeat split. Qed.

(** ** The general statements at concrete inputs *)

Lemma transparency_set_get_witness :
  (exists c',
     assign transparency_fset 0.25%float fresh_10_20 = (c', Return tt) /\
     transparency c' = (c', Return 0.25%float) /\
     _alpha c' = 0.25%float /\
     visual_updates (visual c') = S (visual_updates (visual fresh_10_20))) /\
  assign transparency_fset 1.5%float fresh_10_20 = (fresh_10_20, Raise ValueError).
Proof.
  split.
  - apply (transparency_set_get 0.25%float fresh_10_20). reflexivity.
  - apply (transparency_set_get 1.5%float fresh_10_20). reflexivity.
Defined.

Lemma fresh_container_refresh_raises_witness :
  __init__ (mkView [10; 20] []) ∅ = Return fresh_10_20 /\
  snd (refresh fresh_10_20) = Raise AttributeError /\
  snd (set_image (mkView [10; 20; 3] []) None None fresh_10_20) = Raise AttributeError.
Proof.
  assert (Hinit : __init__ (mkView [10; 20] []) ∅ = Return fresh_10_20) by reflexivity.
  destruct (fresh_container_refresh_raises _ _ _ Hinit) as (_ & Hrefresh & Hset & _).
  split; [exact Hinit | ]. split; [exact Hrefresh | apply Hset].
Defined.

Lemma interpolation_index_wraps_witness :
  exists c' name,
    assign interpolation_index_fset (-1) fresh_10_20 = (c', Return tt) /\
    interpolation_index c' = (c', Return ((-1) mod 5)) /\
    0 <= (-1) mod 5 < 5 /\
    sample_names !! Z.to_nat ((-1) mod 5) = Some name /\
    visual_interpolation (visual c') = name.
Proof.
  apply (interpolation_index_wraps (-1) fresh_10_20). discriminate.
Defined.

Lemma z_index_round_trip_witness :
  exists c',
    assign z_index_fset 3.5%float fresh_10_20 = (c', Return tt) /\
    visual_transform (visual c')
    = ST (mkST (Vec4 1 1 1 1) (Vec4 0 0 (-3.5) 0) 1 1) /\
    z_index c' = (c', Return 3.5%float).
Proof.
  apply (z_index_round_trip 3.5%float fresh_10_20 STTransform_new). reflexivity.
Defined.

Lemma not_STTransform_raises_witness :
  scale matrix_10_20 = (matrix_10_20, Raise TypeError) /\
  translate matrix_10_20 = (matrix_10_20, Raise TypeError) /\
  assign z_index_fset 2%float matrix_10_20 = (matrix_10_20, Raise TypeError).
Proof.
  assert (Hnot : isinstance_STTransform (visual_transform (visual matrix_10_20)) = false)
    by reflexivity.
  destruct (not_STTransform_raises matrix_10_20 Hnot) as (Hs & _ & Ht & _ & Hz).
  split; [exact Hs | ]. split; [exact Ht | apply Hz].
Defined.

Lemma set_image_multichannel_tag_witness :
  _meta (fst (set_image (mkView [10; 20; 3] []) None None fresh_10_20)) !! "itype"
  = Some (MStr "multi") /\
  _meta (fst (set_image (mkView [10; 20; 3] []) None (Some false) fresh_10_20)) = ∅.
Proof.
  destruct (set_image_multichannel_tag (E := sample) (mkView [10; 20; 3] []) fresh_10_20)
    as (Htag & Hfalse & _).
  split; [apply Htag; reflexivity | apply Hfalse].
Defined.

Lemma set_view_slice_list_witness :
  set_view_slice (Indices PyList [SelInt 15; SelInt 5; SelInt 7]) fresh_10_20
  = match view_getitem (mkView [10; 20] [])
            (clamped_index [10; 20] 2 [SelInt 15; SelInt 5; SelInt 7]) with
    | Return sliced_image =>
        (with_visual (visual_update (visual_set_data sliced_image (visual fresh_10_20)))
           (with_indices (Indices PyList [SelInt 15; SelInt 5; SelInt 7]) fresh_10_20),
         Return tt)
    | Raise e => (with_indices (Indices PyList [SelInt 15; SelInt 5; SelInt 7]) fresh_10_20, Raise e)
    end.
Proof.
  apply (set_view_slice_list [SelInt 15; SelInt 5; SelInt 7] fresh_10_20). vm_compute. discriminate.
Defined.

Lemma set_view_slice_tuple_witness :
  set_view_slice (Indices PyTuple [SelInt 15; SelInt 5; SelInt 7]) fresh_10_20
  = match view_getitem (mkView [10; 20] []) [SelInt 15; SelInt 5] with
    | Return sliced_image =>
        (with_visual (visual_update (visual_set_data sliced_image (visual fresh_10_20)))
           (with_indices (Indices PyTuple [SelInt 15; SelInt 5; SelInt 7]) fresh_10_20),
         Return tt)
    | Raise e => (with_indices (Indices PyTuple [SelInt 15; SelInt 5; SelInt 7]) fresh_10_20, Raise e)
    end.
Proof.
  apply (set_view_slice_tuple [SelInt 15; SelInt 5; SelInt 7] fresh_10_20). vm_compute. discriminate.
Defined.

Lemma interpolation_round_trip_witness :
  exists c',
    assign interpolation_fset "bilinear" fresh_10_20 = (c', Return tt) /\
    interpolation c' = (c', Return "bilinear") /\
    visual_interpolation (visual c') = "bilinear".
Proof.
  apply (interpolation_round_trip "bilinear" fresh_10_20).
  apply list_elem_of_lookup. exists 1%nat. reflexivity.
Defined.


(** * Further properties of the methods *)

(** ** Python helpers *)

Lemma list_index_absent (x : string) (l : list string) :
  x ∉ l -> list_index x l = Raise ValueError.
Proof.
  induction l as [ | y l IH]; intros Hnot; cbn; [reflexivity | ].
  apply not_elem_of_cons in Hnot as [Hne Hnot].
  destruct (decide (x = y)) as [Heq | _]; [contradiction | ].
  rewrite (IH Hnot). reflexivity.
Qed.

Lemma py_mod_period (i k n : Z) : py_mod (i + k * n) n = py_mod i n.
Proof.
  unfold py_mod. destruct (Z.eqb_spec n 0) as [-> | Hn]; [reflexivity | ].
  rewrite Z_mod_plus_full. reflexivity.
Qed.

(** When no integer entry exceeds its bound, the clamping changes nothing. *)
Lemma clamped_index_unchanged (shp : list Z) (ndim : Z) (items : list selector) :
  0 <= ndim <= Z.of_nat (length shp) ->
  (forall (dim : nat) (i d : Z),
     items !! dim = Some (SelInt i) -> shp !! dim = Some d -> i <= d - 1) ->
  clamped_index shp ndim items = take (Z.to_nat ndim) items.
Proof.
  intros [H0 Hn] Hbound. unfold clamped_index. apply list_eq. intros dim.
  rewrite lookup_zip_with.
  destruct (take (Z.to_nat ndim) items !! dim) as [item | ] eqn:Hitem; [ | reflexivity].
  cbn.
  assert (Hdim : (dim < Z.to_nat ndim)%nat).
  { apply lookup_lt_Some in Hitem. rewrite length_take in Hitem. lia. }
  destruct (lookup_lt_is_Some_2 shp dim) as [d Hd]; [lia | ].
  rewrite Hd. cbn. f_equal.
  destruct item as [i | a b c]; cbn; [ | reflexivity].
  rewrite lookup_take_lt in Hitem by exact Hdim.
  rewrite Z.min_l; [reflexivity | ]. eapply Hbound; eassumption.
Qed.

Lemma clamped_index_length (shp : list Z) (ndim : Z) (items : list selector) :
  0 <= ndim <= Z.of_nat (length shp) ->
  Z.of_nat (length (clamped_index shp ndim items)) = Z.min (Z.of_nat (length items)) ndim.
Proof.
  intros [H0 Hn]. unfold clamped_index. rewrite length_zip_with, length_take. lia.
Qed.

Section Behaviour.

Context {E : Externals}.

Local Open Scope py_scope.

Implicit Types (c self : ImageContainer) (items : list selector).

Ltac run :=
  unfold assign, bind, modify, gets, ret, raise, lift; cbn.

Lemma ndim_of_range c :
  - 1 <= ndim_of c <= Z.of_nat (length (shape (_image c))).
Proof. unfold ndim_of. destruct (is_multichannel (_meta c)); cbn; lia. Qed.

(** ** set_view_slice: what is displayed and what is left alone *)

Lemma set_view_slice_unfold (i : index_arg) c :
  set_view_slice i c
  = match slice_of i c with
    | Return sliced_image =>
        (with_visual (visual_update (visual_set_data sliced_image (visual c)))
           (with_indices i c), Return tt)
    | Raise e => (with_indices i c, Raise e)
    end.
Proof.
  unfold set_view_slice, slice_of, image_ndim, data_ndim, image, meta, update. run.
  fold (ndim_of c).
  destruct i as [ | kind items]; cbn; [reflexivity | ].
  destruct (applied_index _ _ _ _) as [key | e]; cbn; [ | reflexivity].
  destruct (getitem _ _); reflexivity.
Qed.

(** X6: [set_view_slice] stores its argument and acts on the visual's data
    buffer and update count only.  The image, the metadata, the alpha, the
    interpolation index and every other field of the visual are as before;
    when the call raises, the visual is exactly as before: the previous
    slice stays displayed and no update is requested. *)
Theorem set_view_slice_changes_display_only (i : index_arg) c :
  let c' := fst (set_view_slice i c) in
  indices c' = Some i /\
  _image c' = _image c /\ _meta c' = _meta c /\ _alpha c' = _alpha c /\
  _interpolation_index c' = _interpolation_index c /\
  _need_colortransform_update (visual c') = _need_colortransform_update (visual c) /\
  visual_interpolation (visual c') = visual_interpolation (visual c) /\
  visual_clim (visual c') = visual_clim (visual c) /\
  visual_cmap (visual c') = visual_cmap (visual c) /\
  visual_method (visual c') = visual_method (visual c) /\
  visual_transform (visual c') = visual_transform (visual c) /\
  match snd (set_view_slice i c) with
  | Return _ => visual_updates (visual c') = S (visual_updates (visual c))
  | Raise _ => visual c' = visual c
  end.
Proof.
  cbn zeta. rewrite set_view_slice_unfold.
  destruct (slice_of i c) as [s | e]; cbn; repeat split.
Qed.

(** X7: after a [set_view_slice] that returned, [refresh] returns as well
    and displays the same slice again; it marks the colour transform as
    stale and requests one more update. *)
Theorem refresh_after_set_view_slice (i : index_arg) c :
  snd (set_view_slice i c) = Return tt ->
  let c' := fst (set_view_slice i c) in
  snd (refresh c') = Return tt /\
  visual_data (visual (fst (refresh c'))) = visual_data (visual c') /\
  _need_colortransform_update (visual (fst (refresh c'))) = true /\
  visual_updates (visual (fst (refresh c'))) = S (visual_updates (visual c')) /\
  indices (fst (refresh c')) = Some i.
Proof.
  cbn zeta. rewrite set_view_slice_unfold.
  destruct (slice_of i c) as [s | e] eqn:Hslice; cbn -[refresh]; [intros _ | discriminate].
  unfold refresh, get_indices, bind, modify. cbn -[set_view_slice].
  rewrite set_view_slice_unfold.
  replace (slice_of i _) with (slice_of i c) by (destruct i; reflexivity).
  rewrite Hslice. cbn. repeat split.
Qed.

(** ** The key handed to the array *)

(** X8: when [image_ndim] is not negative the truncation and clamping never
    raise, for a list and for a tuple alike; the key has
    [min(len(indices), image_ndim)] entries, so the trailing channel axis of
    a multichannel image is never indexed, and entries past [image_ndim]
    have no influence on the key. *)
Theorem applied_index_length (kind : seq_kind) items c :
  0 <= ndim_of c ->
  exists key,
    applied_index kind (shape (_image c)) (ndim_of c) items = Return key /\
    Z.of_nat (length key) = Z.min (Z.of_nat (length items)) (ndim_of c) /\
    (is_multichannel (_meta c) = true ->
     (length key < length (shape (_image c)))%nat) /\
    (forall items',
       take (Z.to_nat (ndim_of c)) items' = take (Z.to_nat (ndim_of c)) items ->
       applied_index kind (shape (_image c)) (ndim_of c) items' = Return key).
Proof.
  intros H0. pose proof (ndim_of_range c) as Hrange.
  assert (Hmulti : is_multichannel (_meta c) = true ->
                   ndim_of c < Z.of_nat (length (shape (_image c)))).
  { unfold ndim_of. intros ->. cbn. lia. }
  destruct kind.
  - exists (clamped_index (shape (_image c)) (ndim_of c) items).
    split; [apply applied_index_list; lia | ].
    pose proof (clamped_index_length (shape (_image c)) (ndim_of c) items) as Hlen.
    split; [apply Hlen; lia | ]. split.
    + intros Hm. specialize (Hmulti Hm). lia.
    + intros items' Htake. rewrite applied_index_list by lia.
      unfold clamped_index. rewrite Htake. reflexivity.
  - exists (take (Z.to_nat (ndim_of c)) items).
    split; [apply applied_index_tuple; lia | ].
    split; [rewrite length_take; lia | ]. split.
    + intros Hm. specialize (Hmulti Hm). rewrite length_take. lia.
    + intros items' Htake. rewrite applied_index_tuple by lia.
      rewrite Htake. reflexivity.
Qed.

(** X9: the unclamped tuple matters only where clamping was due: when no
    integer entry exceeds the last position of its axis, a tuple and a list
    with the same entries select the same slice, or fail alike. *)
Theorem tuple_like_list_within_bounds items c :
  0 <= ndim_of c ->
  (forall (dim : nat) (i d : Z),
     items !! dim = Some (SelInt i) -> shape (_image c) !! dim = Some d -> i <= d - 1) ->
  slice_of (Indices PyTuple items) c = slice_of (Indices PyList items) c /\
  visual (fst (set_view_slice (Indices PyTuple items) c))
  = visual (fst (set_view_slice (Indices PyList items) c)) /\
  snd (set_view_slice (Indices PyTuple items) c)
  = snd (set_view_slice (Indices PyList items) c).
Proof.
  intros H0 Hbound. pose proof (ndim_of_range c) as Hrange.
  assert (Hslice : slice_of (Indices PyTuple items) c = slice_of (Indices PyList items) c).
  { unfold slice_of. rewrite applied_index_tuple, applied_index_list by lia.
    rewrite clamped_index_unchanged by (lia || exact Hbound). reflexivity. }
  split; [exact Hslice | ].
  rewrite !set_view_slice_unfold, Hslice.
  destruct (slice_of (Indices PyList items) c); split; reflexivity.
Qed.

(** X10: a scalar image whose metadata marks it multichannel has
    [image_ndim = -1].  The truncation [indices[:-1]] then drops the last
    entry only: with two or more entries the loop reads [shape[0]] of an
    empty shape and the call raises [IndexError], leaving the visual as it
    was; with at most one entry the key is empty. *)
Theorem set_view_slice_negative_ndim (kind : seq_kind) items c :
  ndim_of c < 0 ->
  shape (_image c) = [] /\
  ((2 <= length items)%nat ->
   set_view_slice (Indices kind items) c = (with_indices (Indices kind items) c, Raise IndexError)) /\
  ((length items <= 1)%nat ->
   slice_of (Indices kind items) c = getitem (_image c) []).
Proof.
  intros Hneg. pose proof (ndim_of_range c) as Hrange.
  assert (Hshape : shape (_image c) = []).
  { revert Hneg. unfold ndim_of.
    destruct (shape (_image c)), (is_multichannel (_meta c)); cbn; (reflexivity || lia). }
  assert (Hndim : ndim_of c = -1) by (rewrite Hshape in Hrange; cbn in Hrange; lia).
  split; [exact Hshape | ]. split.
  - intros Hlen. rewrite set_view_slice_unfold. unfold slice_of, applied_index, py_slice_to.
    rewrite Hshape, Hndim. cbn.
    destruct items as [ | a [ | b rest]]; cbn in Hlen; [lia | lia | ].
    reflexivity.
  - intros Hlen. unfold slice_of, applied_index, py_slice_to. rewrite Hshape, Hndim.
    destruct items as [ | a [ | b rest]]; cbn in Hlen; [reflexivity | reflexivity | lia].
Qed.

(** ** Replacing the image *)

(** X11: on a container with a stored index, assigning [image] replaces the
    array, marks the colour transform as stale and slices the new array
    with the stored index as it was given, so the clamping is done afresh
    against the new shape.  If that slicing raises, the exception
    propagates with the new array in place and the old slice still on
    display. *)
Theorem image_assignment_reslices (i : index_arg) (image' : ndarray) c :
  indices c = Some i ->
  let c' := fst (assign image_fset image' c) in
  _image c' = image' /\
  indices c' = Some i /\
  _need_colortransform_update (visual c') = true /\
  match slice_of i (with_image image' c) with
  | Return sliced_image =>
      snd (assign image_fset image' c) = Return tt /\
      visual_data (visual c') = Some sliced_image
  | Raise e =>
      snd (assign image_fset image' c) = Raise e /\
      visual_data (visual c') = visual_data (visual c)
  end.
Proof.
  intros Hi. cbn zeta. cbn -[refresh].
  unfold refresh, get_indices, bind, modify. cbn -[set_view_slice]. rewrite Hi.
  rewrite set_view_slice_unfold.
  replace (slice_of i _) with (slice_of i (with_image image' c)) by (destruct i; reflexivity).
  destruct (slice_of i (with_image image' c)) as [s | e]; cbn; repeat split.
Qed.

(** X12: on a container without a stored index, [set_image] and the
    assignments to [image] and [meta] raise [AttributeError] only after
    their own effects: the new array or mapping is in place, the
    multichannel tag is written when due, and the colour transform is marked
    stale.  The visual's data and update count are untouched. *)
Theorem failed_refresh_keeps_effects (image' : ndarray) (m' : gmap string meta_value)
    (new_meta : option (gmap string meta_value)) (multichannel : option bool) c :
  indices c = None ->
  assign image_fset image' c
  = (with_visual (visual_set_need true (visual c)) (with_image image' c),
     Raise AttributeError) /\
  assign meta_fset m' c
  = (with_visual (visual_set_need true (visual c)) (with_meta m' c),
     Raise AttributeError) /\
  set_image image' new_meta multichannel c
  = (with_visual (visual_set_need true (visual c))
       (with_meta
          (if default (guess_multichannel (shape image')) multichannel
           then <["itype" := MStr "multi"]> (default (_meta c) new_meta)
           else default (_meta c) new_meta)
          (with_image image' c)),
     Raise AttributeError).
Proof.
  intros Hnone. split; [ | split].
  - cbn. unfold refresh, get_indices. run. rewrite Hnone. reflexivity.
  - cbn. unfold refresh, get_indices. run. rewrite Hnone. reflexivity.
  - unfold set_image, refresh, get_indices. run.
    destruct new_meta as [m | ], multichannel as [[ | ] | ]; cbn;
      try destruct (guess_multichannel (shape image')); cbn; rewrite Hnone; reflexivity.
Qed.

Lemma refresh_with_indices (i : index_arg) c :
  indices c = Some i ->
  refresh c
  = match slice_of i c with
    | Return sliced_image =>
        (with_visual
           (visual_update (visual_set_data sliced_image (visual_set_need true (visual c))))
           c, Return tt)
    | Raise e => (with_visual (visual_set_need true (visual c)) c, Raise e)
    end.
Proof.
  intros Hi. unfold refresh, get_indices, bind, modify. cbn -[set_view_slice]. rewrite Hi.
  rewrite set_view_slice_unfold.
  replace (slice_of i _) with (slice_of i c) by (destruct i; reflexivity).
  destruct c as [img m v a idx ind]. cbn in Hi. subst ind.
  destruct (slice_of i _); reflexivity.
Qed.

(** X21: on a container with a stored index, [set_image] and the
    assignment to [meta] slice with the stored index under the image and
    metadata they have just put in place, so a change of the multichannel
    tag changes [image_ndim] for that very slicing.  When the slicing
    raises, the exception propagates and the old slice stays on display. *)
Theorem set_image_reslices (i : index_arg) (image' : ndarray)
    (new_meta : option (gmap string meta_value)) (multichannel : option bool)
    (m' : gmap string meta_value) c :
  indices c = Some i ->
  (let entry :=
     with_meta
       (if default (guess_multichannel (shape image')) multichannel
        then <["itype" := MStr "multi"]> (default (_meta c) new_meta)
        else default (_meta c) new_meta)
       (with_image image' c) in
   match slice_of i entry with
   | Return sliced_image =>
       snd (set_image image' new_meta multichannel c) = Return tt /\
       visual_data (visual (fst (set_image image' new_meta multichannel c)))
       = Some sliced_image
   | Raise e =>
       snd (set_image image' new_meta multichannel c) = Raise e /\
       visual_data (visual (fst (set_image image' new_meta multichannel c)))
       = visual_data (visual c)
   end) /\
  match slice_of i (with_meta m' c) with
  | Return sliced_image =>
      snd (assign meta_fset m' c) = Return tt /\
      visual_data (visual (fst (assign meta_fset m' c))) = Some sliced_image
  | Raise e =>
      snd (assign meta_fset m' c) = Raise e /\
      visual_data (visual (fst (assign meta_fset m' c))) = visual_data (visual c)
  end.
Proof.
  intros Hi. split.
  - cbn zeta. rewrite set_image_run.
    match goal with |- context [refresh ?s] =>
      replace s with
        (with_meta
           (if default (guess_multichannel (shape image')) multichannel
            then <["itype" := MStr "multi"]> (default (_meta c) new_meta)
            else default (_meta c) new_meta)
           (with_image image' c))
        by (destruct new_meta, (default (guess_multichannel (shape image')) multichannel);
            destruct c; reflexivity)
    end.
    rewrite (refresh_with_indices i) by exact Hi.
    destruct (slice_of i _); split; reflexivity.
  - change (assign meta_fset m' c) with (refresh (with_meta m' c)).
    rewrite (refresh_with_indices i) by exact Hi.
    destruct (slice_of i _); split; reflexivity.
Qed.

(** X22: [set_image] without a [meta] argument never removes or alters a
    metadata entry other than ['itype'], and it never clears the tag:
    with [multichannel=False] the metadata is untouched, so an image whose
    metadata is already tagged multichannel keeps being sliced as
    multichannel. *)
Theorem set_image_keeps_metadata (image' : ndarray) (multichannel : option bool) c :
  (forall key : string,
     key <> "itype" ->
     _meta (fst (set_image image' None multichannel c)) !! key = _meta c !! key) /\
  _meta (fst (set_image image' None (Some false) c)) = _meta c /\
  ndim_of (fst (set_image image' None (Some false) c))
  = Z.of_nat (length (shape image')) - Z.b2z (is_multichannel (_meta c)).
Proof.
  split; [ | split].
  - intros key Hkey. destruct (set_image_state image' None multichannel c) as [_ ->].
    cbn. destruct (default _ multichannel); [ | reflexivity].
    apply lookup_insert_ne. congruence.
  - destruct (set_image_state image' None (Some false) c) as [_ ->]. reflexivity.
  - unfold ndim_of.
    destruct (set_image_state image' None (Some false) c) as [-> ->]. reflexivity.
Qed.

(** ** interpolation and interpolation_index *)

(** X13: assigning a name that is not in the table to [interpolation]
    raises [ValueError] and leaves the container as it was. *)
Theorem interpolation_unknown_name (name : string) c :
  name ∉ interpolation_names ->
  assign interpolation_fset name c = (c, Raise ValueError).
Proof.
  intros Hnot. cbn. run. unfold _name_to_index.
  rewrite (list_index_absent _ _ Hnot). reflexivity.
Qed.

(** X14: [interpolation_index] is periodic in the length of the table:
    assigning [i + k * len(interpolation_names)] has the effect and the
    outcome of assigning [i]. *)
Theorem interpolation_index_periodic (i k : Z) c :
  assign interpolation_index_fset (i + k * Z.of_nat (length interpolation_names)) c
  = assign interpolation_index_fset i c.
Proof.
  cbn. run. rewrite py_mod_period. reflexivity.
Qed.

(** ** scale, translate and z_index on a scale/translate transform *)

(** X15: [translate] and [z_index] are two views of one component.  After
    [translate = vec], [z_index] reads the negated third component of
    [vec]; after [z_index = k], [translate] reads the former vector with
    [-k] as third component and the others untouched.  Neither assignment
    alters [scale]. *)
Theorem translate_z_index_agree (vec : vec4) (k : float) c (st : STTransform) :
  visual_transform (visual c) = ST st ->
  z_index (fst (assign translate_fset vec c))
  = (fst (assign translate_fset vec c), Return (- v2 vec)%float) /\
  translate (fst (assign z_index_fset k c))
  = (fst (assign z_index_fset k c),
     Return (Vec4 (v0 (_translate st)) (v1 (_translate st)) (- k)%float (v3 (_translate st)))) /\
  scale (fst (assign translate_fset vec c)) = (fst (assign translate_fset vec c), Return (_scale st)) /\
  scale (fst (assign z_index_fset k c)) = (fst (assign z_index_fset k c), Return (_scale st)).
Proof.
  intros Hst.
  repeat split; cbn;
    unfold z_index, translate, scale, _error_if_not_STTransform, transform, put_transform;
    run; rewrite !Hst; cbn; rewrite ?Hst; reflexivity.
Qed.

(** X16: on a scale/translate transform, [scale = vec] and
    [translate = vec] return, read back as [vec], and leave the other
    vector alone; neither makes the two refresh calls that [z_index]
    makes. *)
Theorem scale_translate_round_trip (vec : vec4) c (st : STTransform) :
  visual_transform (visual c) = ST st ->
  (exists c',
     assign scale_fset vec c = (c', Return tt) /\
     scale c' = (c', Return vec) /\
     translate c' = (c', Return (_translate st)) /\
     visual_transform (visual c')
     = ST (mkST vec (_translate st) (shader_updates st) (transform_updates st))) /\
  (exists c',
     assign translate_fset vec c = (c', Return tt) /\
     translate c' = (c', Return vec) /\
     scale c' = (c', Return (_scale st)) /\
     visual_transform (visual c')
     = ST (mkST (_scale st) vec (shader_updates st) (transform_updates st))).
Proof.
  intros Hst.
  split; cbn; unfold _error_if_not_STTransform, transform, put_transform; run;
    rewrite !Hst; cbn; rewrite ?Hst;
    (eexists; split; [reflexivity | ]);
    unfold scale, translate, _error_if_not_STTransform, transform; run; repeat split.
Qed.

(** ** transform *)

(** X17: assigning [transform] never raises and checks nothing.  With
    [None] a fresh scale/translate transform is installed, so that [scale]
    reads (1, 1, 1, 1) and [translate] reads (0, 0, 0, 0); with a transform
    of another kind the assignment goes through all the same, and [scale],
    [translate] and [z_index] raise [TypeError] from then on.  Only the
    visual's transform changes. *)
Theorem transform_assignment (tf : option transform_t) (type_name : string) c :
  assign transform_fset tf c
  = (with_visual
       (visual_set_transform (default (ST STTransform_new) tf) (visual c)) c,
     Return tt) /\
  (let c' := fst (assign transform_fset None c) in
   scale c' = (c', Return (Vec4 1 1 1 1)) /\
   translate c' = (c', Return (Vec4 0 0 0 0))) /\
  (let c' := fst (assign transform_fset (Some (OtherTransform type_name)) c) in
   scale c' = (c', Raise TypeError) /\
   translate c' = (c', Raise TypeError) /\
   z_index c' = (c', Raise TypeError)).
Proof.
  split; [destruct tf; reflexivity | ]. repeat split.
Qed.

(** ** The constructor *)

Lemma init_run (image : ndarray) (m : gmap string meta_value) (i : Z) :
  list_index "nearest" interpolation_names = Return i ->
  __init__ image m
  = Return
      (mkContainer image m
         (visual_set_transform (ST STTransform_new)
            (visual_set_interpolation "nearest" (new_Image "auto")))
         1%float i None).
Proof.
  intros Hi. destruct (list_index_found _ _ _ Hi) as [Hrange Hlook].
  destruct (py_index_in_range interpolation_names i Hrange) as (name & Hname & Hlook').
  assert (name = "nearest") as -> by congruence.
  unfold __init__. cbn. run. unfold _name_to_index, py_mod, _index_to_name. rewrite Hi. cbn.
  destruct (Z.eqb_spec (Z.of_nat (length interpolation_names)) 0) as [H0 | _]; [lia | ].
  cbn. rewrite Z.mod_small by exact Hrange. rewrite Hname. reflexivity.
Qed.

(** X18: the constructor returns exactly when ['nearest'] is in the table
    of interpolation names, and raises [ValueError] otherwise.  The
    container it returns holds the image and the metadata it was given, has
    transparency 1.0, interpolation ['nearest'] (in the visual too), a fresh
    scale/translate transform with scale (1, 1, 1, 1) and translate
    (0, 0, 0, 0), and no stored index. *)
Theorem init_result (image : ndarray) (m : gmap string meta_value) :
  ("nearest" ∈ interpolation_names ->
   exists c,
     __init__ image m = Return c /\
     _image c = image /\ _meta c = m /\ indices c = None /\
     transparency c = (c, Return 1%float) /\
     interpolation c = (c, Return "nearest") /\
     visual_interpolation (visual c) = "nearest" /\
     scale c = (c, Return (Vec4 1 1 1 1)) /\
     translate c = (c, Return (Vec4 0 0 0 0))) /\
  ("nearest" ∉ interpolation_names -> __init__ image m = Raise ValueError).
Proof.
  split.
  - intros Hin. destruct (list_index_elem_of _ _ Hin) as [i Hi].
    destruct (list_index_found _ _ _ Hi) as [Hrange Hlook].
    destruct (py_index_in_range interpolation_names i Hrange) as (name & Hname & Hlook').
    assert (name = "nearest") as -> by congruence.
    eexists. split; [apply (init_run image m i Hi) | ].
    repeat split. unfold interpolation, interpolation_index. run. unfold _index_to_name.
    rewrite Hname. reflexivity.
  - intros Hnot. unfold __init__. cbn. run. unfold _name_to_index.
    rewrite (list_index_absent _ _ Hnot). reflexivity.
Qed.

(** ** What every reachable container satisfies *)

Lemma refresh_controls c :
  _interpolation_index (fst (refresh c)) = _interpolation_index c /\
  visual_interpolation (visual (fst (refresh c))) = visual_interpolation (visual c) /\
  _alpha (fst (refresh c)) = _alpha c.
Proof.
  unfold refresh, get_indices, bind, modify. cbn -[set_view_slice].
  destruct (indices c) as [i | ]; [ | repeat split].
  rewrite set_view_slice_unfold. destruct (slice_of i _); repeat split.
Qed.

Lemma in_sync_preserved c c' :
  _interpolation_index c' = _interpolation_index c ->
  visual_interpolation (visual c') = visual_interpolation (visual c) ->
  interpolation_in_sync c -> interpolation_in_sync c'.
Proof. unfold interpolation_in_sync. intros -> ->. tauto. Qed.

Lemma in_range_preserved c c' :
  _alpha c' = _alpha c -> transparency_in_range c -> transparency_in_range c'.
Proof. unfold transparency_in_range. intros ->. tauto. Qed.

Lemma interpolation_index_assign_controls (i : Z) c :
  interpolation_in_sync c ->
  interpolation_in_sync (fst (assign interpolation_index_fset i c)) /\
  _alpha (fst (assign interpolation_index_fset i c)) = _alpha c.
Proof.
  intros Hsync. pose proof Hsync as [Hrange _].
  assert (Hlen : 0 < Z.of_nat (length interpolation_names)) by lia.
  pose proof (Z.mod_pos_bound i _ Hlen) as Hmod.
  destruct (py_index_in_range interpolation_names _ Hmod) as (name & Hname & Hlook).
  cbn. run. unfold py_mod.
  destruct (Z.eqb_spec (Z.of_nat (length interpolation_names)) 0) as [H0 | _]; [lia | ].
  cbn. unfold _index_to_name. rewrite Hname. cbn.
  split; [ | reflexivity]. split; [exact Hmod | exact Hlook].
Qed.

Lemma run_invariant (k : call) c :
  interpolation_in_sync c /\ transparency_in_range c ->
  interpolation_in_sync (fst (run k c)) /\ transparency_in_range (fst (run k c)).
Proof.
  intros [Hsync Halpha].
  assert (Hframe : forall c',
            _interpolation_index c' = _interpolation_index c ->
            visual_interpolation (visual c') = visual_interpolation (visual c) ->
            _alpha c' = _alpha c ->
            interpolation_in_sync c' /\ transparency_in_range c').
  { intros c' Hi Hv Ha. split; [eapply in_sync_preserved | eapply in_range_preserved]; eauto. }
  destruct k as [i | img new_meta multichannel | | | img | m | i | name | t
                | v | v | v | tf | vec | vec | index]; cbn [run].
  - apply Hframe; rewrite set_view_slice_unfold; destruct (slice_of _ _); reflexivity.
  - rewrite set_image_run.
    match goal with |- context [refresh ?s] =>
      destruct (refresh_controls s) as (Hi & Hv & Ha) end.
    apply Hframe; [rewrite Hi | rewrite Hv | rewrite Ha];
      destruct new_meta, (default _ multichannel); reflexivity.
  - apply Hframe; reflexivity.
  - destruct (refresh_controls c) as (Hi & Hv & Ha). apply Hframe; assumption.
  - destruct (refresh_controls (with_image img c)) as (Hi & Hv & Ha).
    apply Hframe; assumption.
  - destruct (refresh_controls (with_meta m c)) as (Hi & Hv & Ha).
    apply Hframe; assumption.
  - destruct (interpolation_index_assign_controls i c Hsync) as [Hs Ha].
    split; [exact Hs | eapply in_range_preserved; eauto].
  - change (assign interpolation_fset name c)
      with (bind (lift (_name_to_index name))
              (fun i => assign interpolation_index_fset i) c).
    unfold bind, lift, _name_to_index.
    destruct (list_index name interpolation_names) as [i | e]; cbn -[assign];
      [ | split; assumption].
    destruct (interpolation_index_assign_controls i c Hsync) as [Hs Ha].
    split; [exact Hs | eapply in_range_preserved; eauto].
  - cbn. destruct ((0 <=? t)%float && (t <=? 1)%float) eqn:Ht; cbn.
    + split; [exact Hsync | exact Ht].
    + split; assumption.
  - split; assumption.
  - apply Hframe; reflexivity.
  - split; assumption.
  - apply Hframe; reflexivity.
  - apply Hframe; cbn; unfold _error_if_not_STTransform, transform, put_transform; run;
      destruct (visual_transform (visual c)) eqn:Htf; cbn; rewrite ?Htf; reflexivity.
  - apply Hframe; cbn; unfold _error_if_not_STTransform, transform, put_transform; run;
      destruct (visual_transform (visual c)) eqn:Htf; cbn; rewrite ?Htf; reflexivity.
  - apply Hframe; cbn; unfold _error_if_not_STTransform, transform, put_transform; run;
      destruct (visual_transform (visual c)) eqn:Htf; cbn; rewrite ?Htf; reflexivity.
Qed.

Lemma reachable_controls c :
  reachable c -> interpolation_in_sync c /\ transparency_in_range c.
Proof.
  induction 1 as [image m c Hinit | k c Hreach IH].
  - destruct (list_index "nearest" interpolation_names) as [i | e] eqn:Hi.
    + rewrite (init_run image m i Hi) in Hinit. injection Hinit as <-.
      destruct (list_index_found _ _ _ Hi) as [Hrange Hlook].
      split; [split; assumption | reflexivity].
    + revert Hinit. unfold __init__. cbn. run. unfold _name_to_index. rewrite Hi.
      discriminate.
  - apply run_invariant, IH.
Qed.

(** X19: in every state a container can reach through its constructor and
    any sequence of calls and property assignments, returned or raised,
    the interpolation index lies within the table and points at the very
    name the visual holds, and the stored alpha lies in [0, 1].  Reading
    [interpolation] therefore never raises there and gives the visual's
    name. *)
Theorem reachable_invariant c :
  reachable c ->
  0 <= _interpolation_index c < Z.of_nat (length interpolation_names) /\
  interpolation_names !! Z.to_nat (_interpolation_index c)
  = Some (visual_interpolation (visual c)) /\
  interpolation c = (c, Return (visual_interpolation (visual c))) /\
  (0 <=? _alpha c)%float = true /\ (_alpha c <=? 1)%float = true.
Proof.
  intros Hreach. destruct (reachable_controls c Hreach) as [[Hrange Hlook] Halpha].
  destruct (py_index_in_range interpolation_names _ Hrange) as (name & Hname & Hlook').
  assert (name = visual_interpolation (visual c)) as -> by congruence.
  split; [exact Hrange | ]. split; [exact Hlook | ]. split.
  - unfold interpolation, interpolation_index. run. unfold _index_to_name.
    rewrite Hname. reflexivity.
  - unfold transparency_in_range in Halpha. apply andb_true_iff in Halpha. exact Halpha.
Qed.

(** ** The title *)

(** X20: on every reachable container [__str__] and [__repr__] return and
    change nothing, whether or not the metadata has a ['name']: the title
    is the space-joined list of ['image'], the name when there is one, the
    shape written as a tuple, and the interpolation name; [__repr__] puts
    ['ImageContainer: '] in front of it. *)
Theorem title_of_reachable c :
  reachable c ->
  exists title,
    __str__ c = (c, Return title) /\
    __repr__ c = (c, Return ("ImageContainer: " +:+ title)) /\
    title
    = str_join " "
        (["image"]
           ++ match _meta c !! "name" with
              | Some name => [str_meta_value name]
              | None => []
              end
           ++ [str_tuple (shape (_image c)); visual_interpolation (visual c)]).
Proof.
  intros Hreach. destruct (reachable_controls c Hreach) as [[Hrange Hlook] _].
  destruct (py_index_in_range interpolation_names _ Hrange) as (name & Hname & Hlook').
  assert (name = visual_interpolation (visual c)) as -> by congruence.
  eexists. split; [ | split].
  - unfold __str__, meta, image, interpolation, interpolation_index. run.
    unfold _index_to_name. rewrite Hname. reflexivity.
  - unfold __repr__, __str__, meta, image, interpolation, interpolation_index. run.
    unfold _index_to_name. rewrite Hname. reflexivity.
  - destruct (_meta c !! "name"); reflexivity.
Qed.

End Behaviour.

(** * The further properties at concrete inputs *)

Lemma refresh_after_set_view_slice_witness :
  snd (refresh sliced_10_20) = Return tt /\
  visual_data (visual (fst (refresh sliced_10_20)))
  = Some (mkView [] [[SelInt 9; SelInt 5]]).
Proof.
  destruct (refresh_after_set_view_slice (Indices PyList [SelInt 15; SelInt 5]) fresh_10_20)
    as (Hret & Hdata & _); [reflexivity | ].
  split; [exact Hret | exact Hdata].
Defined.

Lemma applied_index_length_witness :
  exists key,
    applied_index PyList [10; 20; 3] 2 [SelInt 15; SelInt 5; SelInt 1] = Return key /\
    Z.of_nat (length key) = 2 /\
    (length key < 3)%nat.
Proof.
  destruct (applied_index_length PyList [SelInt 15; SelInt 5; SelInt 1] multi_10_20_3)
    as (key & Hkey & Hlen & Hmulti & _); [vm_compute; discriminate | ].
  exists key. split; [exact Hkey | ]. split; [exact Hlen | apply Hmulti; reflexivity].
Defined.

Lemma tuple_like_list_within_bounds_witness :
  snd (set_view_slice (Indices PyTuple [SelInt 3; SelSlice None None None]) fresh_10_20)
  = snd (set_view_slice (Indices PyList [SelInt 3; SelSlice None None None]) fresh_10_20).
Proof.
  apply (tuple_like_list_within_bounds [SelInt 3; SelSlice None None None] fresh_10_20).
  - vm_compute. discriminate.
  - intros [ | [ | dim]] i d Hitem Hd; cbn in Hitem, Hd; try discriminate.
    injection Hitem as <-. injection Hd as <-. lia.
Defined.

Lemma set_view_slice_negative_ndim_witness :
  set_view_slice (Indices PyList [SelInt 0; SelInt 0]) scalar_multi
  = (with_indices (Indices PyList [SelInt 0; SelInt 0]) scalar_multi, Raise IndexError).
Proof.
  apply (set_view_slice_negative_ndim PyList [SelInt 0; SelInt 0] scalar_multi).
  - reflexivity.
  - cbn. lia.
Defined.

Lemma image_assignment_reslices_witness :
  snd (assign image_fset (mkView [30; 30] []) sliced_10_20) = Return tt /\
  visual_data (visual (fst (assign image_fset (mkView [30; 30] []) sliced_10_20)))
  = Some (mkView [] [[SelInt 15; SelInt 5]]).
Proof.
  destruct (image_assignment_reslices (E := sample) (Indices PyList [SelInt 15; SelInt 5])
              (mkView [30; 30] []) sliced_10_20 eq_refl) as (_ & _ & _ & Hslice).
  exact Hslice.
Defined.

Lemma failed_refresh_keeps_effects_witness :
  assign image_fset (mkView [30; 30] []) fresh_10_20
  = (with_visual (visual_set_need true (visual fresh_10_20))
       (with_image (mkView [30; 30] []) fresh_10_20),
     Raise AttributeError).
Proof.
  apply (failed_refresh_keeps_effects (E := sample) (mkView [30; 30] []) ∅ None None
           fresh_10_20).
  reflexivity.
Defined.

Lemma interpolation_unknown_name_witness :
  assign interpolation_fset "cubic" fresh_10_20 = (fresh_10_20, Raise ValueError).
Proof.
  apply (interpolation_unknown_name "cubic" fresh_10_20).
  intros Hin. cbn in Hin.
  repeat (apply elem_of_cons in Hin as [Heq | Hin]; [discriminate Heq | ]).
  inversion Hin.
Defined.

Lemma translate_z_index_agree_witness :
  z_index (fst (assign translate_fset (Vec4 1 2 3 0) fresh_10_20))
  = (fst (assign translate_fset (Vec4 1 2 3 0) fresh_10_20), Return (-3)%float).
Proof.
  apply (translate_z_index_agree (Vec4 1 2 3 0) 0%float fresh_10_20 STTransform_new).
  reflexivity.
Defined.

Lemma scale_translate_round_trip_witness :
  exists c',
    assign scale_fset (Vec4 2 2 1 1) fresh_10_20 = (c', Return tt) /\
    scale c' = (c', Return (Vec4 2 2 1 1)) /\
    translate c' = (c', Return (Vec4 0 0 0 0)) /\
    visual_transform (visual c') = ST (mkST (Vec4 2 2 1 1) (Vec4 0 0 0 0) 0 0).
Proof.
  apply (scale_translate_round_trip (Vec4 2 2 1 1) fresh_10_20 STTransform_new).
  reflexivity.
Defined.

Lemma init_result_witness :
  (exists c : ImageContainer (E := sample),
     __init__ (mkView [10; 20] []) ∅ = Return c /\
     interpolation c = (c, Return "nearest")) /\
  __init__ (E := sample_without_nearest) (mkView [10; 20] []) ∅ = Raise ValueError.
Proof.
  split.
  - destruct (init_result (E := sample) (mkView [10; 20] []) ∅) as [Hin _].
    destruct Hin as (c & Hinit & _ & _ & _ & _ & Hinterp & _).
    + apply list_elem_of_lookup. exists 3%nat. reflexivity.
    + exists c. split; [exact Hinit | exact Hinterp].
  - apply (init_result (E := sample_without_nearest) (mkView [10; 20] []) ∅).
    intros Hin. cbn in Hin.
    repeat (apply elem_of_cons in Hin as [Heq | Hin]; [discriminate Heq | ]).
    inversion Hin.
Defined.

Lemma multi_10_20_3_reachable : reachable multi_10_20_3.
Proof.
  apply (reachable_call (call_set_image (E := sample) (mkView [10; 20; 3] []) None None)
           sliced_10_20).
  apply (reachable_call (call_set_view_slice (Indices PyList [SelInt 15; SelInt 5])) fresh_10_20).
  apply (reachable_init (E := sample) (mkView [10; 20] []) ∅). reflexivity.
Defined.

Lemma reachable_invariant_witness :
  0 <= _interpolation_index multi_10_20_3 < 5 /\
  interpolation multi_10_20_3 = (multi_10_20_3, Return "nearest").
Proof.
  destruct (reachable_invariant multi_10_20_3 multi_10_20_3_reachable)
    as (Hrange & _ & Hinterp & _).
  split; [exact Hrange | exact Hinterp].
Defined.

Lemma title_of_reachable_witness :
  __str__ named_10_20_3 = (named_10_20_3, Return "image cells (10, 20, 3) nearest") /\
  __repr__ named_10_20_3
  = (named_10_20_3, Return "ImageContainer: image cells (10, 20, 3) nearest").
Proof.
  destruct (title_of_reachable named_10_20_3) as (title & Hstr & Hrepr & Htitle).
  - apply (reachable_init (E := sample) (mkView [10; 20; 3] []) {["name" := MStr "cells"]}).
    reflexivity.
  - subst title. split; [exact Hstr | exact Hrepr].
Defined.

Lemma set_image_reslices_witness :
  snd (set_image (mkView [10; 20; 3] []) None None sliced_10_20) = Return tt /\
  visual_data (visual (fst (set_image (mkView [10; 20; 3] []) None None sliced_10_20)))
  = Some (mkView [3] [[SelInt 9; SelInt 5]]).
Proof.
  destruct (set_image_reslices (E := sample) (Indices PyList [SelInt 15; SelInt 5])
              (mkView [10; 20; 3] []) None None ∅ sliced_10_20 eq_refl) as [Hset _].
  exact Hset.
Defined.

Lemma set_image_keeps_metadata_witness :
  _meta (fst (set_image (mkView [30; 30; 3] []) None None named_10_20_3)) !! "name"
  = Some (MStr "cells") /\
  ndim_of (fst (set_image (mkView [30; 30] []) None (Some false) multi_10_20_3)) = 1.
Proof.
  split.
  - destruct (set_image_keeps_metadata (E := sample) (mkView [30; 30; 3] []) None named_10_20_3)
      as [Hkeys _].
    rewrite Hkeys by discriminate. reflexivity.
  - destruct (set_image_keeps_metadata (E := sample) (mkView [30; 30] []) None multi_10_20_3)
      as (_ & _ & Hndim).
    rewrite Hndim. reflexivity.
Defined.
